(** * Bottom sheet: lifecycle, gestures and height resolution

    A shallow embedding of [src/index.tsx] (the [BottomSheet] component of
    react-native-bottom-sheet) and the properties its specification states
    about it.

    Conventions of the embedding.
    - A JavaScript number that the component receives (a prop, a window or
      layout height, a gesture delta) is an exact rational [Q], and the
      values the component assigns to a channel are tracked exactly; the
      sign of zero is outside the model.  The one place where the component
      can produce a non-finite number, the quotient
      [gestureState.dy / convertedHeight], is modelled with JavaScript's
      results for a zero divisor ([number]).  The one place where a quotient
      decides a branch, the test [gestureState.dy >= convertedHeight / 3] of
      a release, takes the quotient as the engine computes it: rounded to
      the nearest binary64, ties to even ([JS.div64]).
    - The component's hooks ([useState], [useRef], [useMemo], the four
      [Animated.Value]s) are the fields of one record, [State], passed
      explicitly; a handler is a function [State -> State].  A state setter
      stores its value when it is called; the render it asks for follows the
      handler ([step]), so that every handler reads what the last render
      saw.
    - What the component asks of the animation engine and of the keyboard is
      appended, in program order, to the field [log].
    - Helpers the component imports from files that are not part of the
      sources at hand ([convertHeight], [normalizeHeight]) are parameters of
      the section that holds the component. *)

From Stdlib Require Import QArith ZArith List Bool String Lia Lqa.
From Stdlib Require SpecFloat.
Import ListNotations.

Local Open Scope Q_scope.

(* ================================================================== *)
(** ** JavaScript numbers *)

Module JS.

(** The result of an arithmetic expression over finite operands. *)
Inductive number : Type :=
| Fin (q : Q)
| PosInfinity
| NegInfinity
| NaN.

Definition Qltb (a b : Q) : bool := negb (Qle_bool b a).

(** [a / b] on finite operands: a zero divisor gives an infinity of the
    sign of [a], or [NaN] for [0 / 0]. *)
Definition div (a b : Q) : number :=
  if Qeq_bool b 0 then
    match a ?= 0 with
    | Eq => NaN
    | Gt => PosInfinity
    | Lt => NegInfinity
    end
  else Fin (a / b).

(** [a - b]. *)
Definition sub (a b : number) : number :=
  match a, b with
  | NaN, _ | _, NaN => NaN
  | Fin x, Fin y => Fin (x - y)
  | Fin _, PosInfinity => NegInfinity
  | Fin _, NegInfinity => PosInfinity
  | PosInfinity, PosInfinity => NaN
  | PosInfinity, _ => PosInfinity
  | NegInfinity, NegInfinity => NaN
  | NegInfinity, _ => NegInfinity
  end.

(** [a < 0] on a result ([NaN] compares false with everything). *)
Definition negative (a : number) : bool :=
  match a with
  | Fin q => Qltb q 0
  | NegInfinity => true
  | PosInfinity | NaN => false
  end.

(** The value of an IEEE 754 datum. *)
Definition of_float (x : SpecFloat.spec_float) : number :=
  match x with
  | SpecFloat.S754_zero _ => Fin 0
  | SpecFloat.S754_infinity false => PosInfinity
  | SpecFloat.S754_infinity true => NegInfinity
  | SpecFloat.S754_nan => NaN
  | SpecFloat.S754_finite s m e =>
      Fin (Qred (inject_Z (if s then Z.neg m else Z.pos m) * 2 ^ e))
  end.

(** An integer as an operand of the division of [SpecFloat]. *)
Definition operand (n : Z) : SpecFloat.spec_float :=
  match n with
  | Z0 => SpecFloat.S754_zero false
  | Zpos m => SpecFloat.S754_finite false m 0
  | Zneg m => SpecFloat.S754_finite true m 0
  end.

(** [a / b] as a binary64: the quotient of the two rationals, rounded once
    to the nearest double (ties to even), by the division of the standard
    library's IEEE 754 specification with 53 bits of precision and
    exponents up to 1024.  For operands that are doubles this is
    JavaScript's [a / b]. *)
Definition div64 (a b : Q) : number :=
  of_float
    (SpecFloat.SFdiv 53 1024
       (operand (Qnum a * Zpos (Qden b)))
       (operand (Qnum b * Zpos (Qden a)))).

(** [a >= b] for a finite [a] ([NaN] compares false with everything). *)
Definition geb (a : Q) (b : number) : bool :=
  match b with
  | Fin q => Qle_bool q a
  | NegInfinity => true
  | PosInfinity | NaN => false
  end.

(** Loose equality [==] of two values that are a number or [undefined]. *)
Definition loose_eq (a b : option Z) : bool :=
  match a, b with
  | None, None => true
  | Some x, Some y => Z.eqb x y
  | _, _ => false
  end.

(** [!v] for a value that is a number or [undefined]. *)
Definition falsy (v : option Z) : bool :=
  match v with
  | None => true
  | Some z => Z.eqb z 0
  end.

End JS.

Import JS.

(* ================================================================== *)
(** ** Props and enumerations *)

(** [enum ANIMATIONS]. *)
Inductive ANIMATIONS : Type := SLIDE | SPRING | FADE.

Definition ANIMATIONS_eqb (a b : ANIMATIONS) : bool :=
  match a, b with
  | SLIDE, SLIDE | SPRING, SPRING | FADE, FADE => true
  | _, _ => false
  end.

(** The argument of [getPanHandlersFor]. *)
Inductive PanView : Type := handlebar | contentwrapper.

(** Modelled from the spec: the type of the [height] prop, declared in
    [index.d.ts], which is not among the sources; section 3 of the
    specification gives it as a tagged union of a pixel number, a percentage
    and "auto". *)
Inductive HeightSpec : Type :=
| Pixels (n : Q)
| Percent (p : Q)
| Auto.

(** The [containerHeight] prop: a number, a percentage string, or omitted. *)
Inductive ContainerHeightProp : Type :=
| CHUndefined
| CHNumber (n : Q)
| CHString (s : string).

Definition HeightSpec_same (a b : HeightSpec) : bool :=
  match a, b with
  | Pixels x, Pixels y => Qeq_bool x y
  | Percent x, Percent y => Qeq_bool x y
  | Auto, Auto => true
  | _, _ => false
  end.

Definition ContainerHeightProp_same (a b : ContainerHeightProp) : bool :=
  match a, b with
  | CHUndefined, CHUndefined => true
  | CHNumber x, CHNumber y => Qeq_bool x y
  | CHString x, CHString y => String.eqb x y
  | _, _ => false
  end.

(** The props the component's logic reads (presentation-only props are left
    out). *)
Record Props : Type := mkProps {
  animationType : ANIMATIONS;
  height : HeightSpec;
  hideHandleBar : bool;
  disableBodyPanning : bool;
  disableHandleBarPanning : bool;
  closeOnDragDown : bool;
  passedContainerHeight : ContainerHeightProp;
  hideBackdrop : bool
}.

(* ================================================================== *)
(** ** The animation engine, as the component uses it *)

(** The four [Animated.Value]s of the component. *)
Inductive Channel : Type :=
| ContainerHeight     (* _animatedContainerHeight *)
| BackdropMaskOpacity (* _animatedBackdropMaskOpacity *)
| Height              (* _animatedHeight *)
| TranslateY.         (* _animatedTranslateY *)

Definition Channel_eqb (a b : Channel) : bool :=
  match a, b with
  | ContainerHeight, ContainerHeight
  | BackdropMaskOpacity, BackdropMaskOpacity
  | Height, Height
  | TranslateY, TranslateY => true
  | _, _ => false
  end.

Inductive Easing : Type :=
| defaultEasing
| slideEasingFn
| springEasingFn.

(** The configuration handed to [Animated.timing]. *)
Record Timing : Type := mkTiming {
  toValue : Q;
  duration : Z;
  easing : Easing
}.

(** The function handed to [start]: nothing, or the arrow function of
    [closeBottomSheet], which closes over the [animationType] of the render
    that created it. *)
Inductive EndCallback : Type :=
| NoCallback
| BackdropFaded (a : ANIMATIONS).

(** An [Animated.Value]: its value and the animation in flight on it. The
    value between the start and the end of an animation is the engine's
    business and is not modelled. *)
Record AnimatedValue : Type := mkAnimated {
  value : number;
  animation : option (Timing * EndCallback)
}.

(** What the component asks of its collaborators, in program order. *)
Inductive Effect : Type :=
| Started (c : Channel) (t : Timing)
| Assigned (c : Channel) (v : number)
| Ended (c : Channel) (finished : bool)
| KeyboardListenersRemoved
| KeyboardDismissed.

(** The values a render saw for the dependency lists of [useMemo] and
    [useLayoutEffect]. *)
Record Deps : Type := mkDeps {
  d_containerHeight : Q;
  d_height : HeightSpec;
  d_sheetOpen : bool;
  d_animationType : ANIMATIONS;
  d_passedContainerHeight : ContainerHeightProp;
  d_SCREEN_HEIGHT : Q;
  d_hideBackdrop : bool
}.

Record State : Type := mkState {
  props : Props;
  SCREEN_HEIGHT : Q;                        (* useWindowDimensions().height *)
  containerHeight : Q;                      (* useState(SCREEN_HEIGHT) *)
  sheetOpen : bool;                         (* useState(false) *)
  animatedContainerHeight : AnimatedValue;
  animatedBackdropMaskOpacity : AnimatedValue;
  animatedHeight : AnimatedValue;
  animatedTranslateY : AnimatedValue;
  cachedContentWrapperNativeTag : option Z; (* useRef(undefined) *)
  convertedHeight : Q;                      (* the value useMemo holds *)
  rendered : option Deps;                   (* dependencies of the last render *)
  log : list Effect
}.

Definition chan (c : Channel) (st : State) : AnimatedValue :=
  match c with
  | ContainerHeight => animatedContainerHeight st
  | BackdropMaskOpacity => animatedBackdropMaskOpacity st
  | Height => animatedHeight st
  | TranslateY => animatedTranslateY st
  end.

Definition set_chan (c : Channel) (v : AnimatedValue) (st : State) : State :=
  mkState (props st) (SCREEN_HEIGHT st) (containerHeight st) (sheetOpen st)
    (if Channel_eqb c ContainerHeight then v else animatedContainerHeight st)
    (if Channel_eqb c BackdropMaskOpacity then v
     else animatedBackdropMaskOpacity st)
    (if Channel_eqb c Height then v else animatedHeight st)
    (if Channel_eqb c TranslateY then v else animatedTranslateY st)
    (cachedContentWrapperNativeTag st) (convertedHeight st) (rendered st)
    (log st).

Definition emits (l : list Effect) (st : State) : State :=
  mkState (props st) (SCREEN_HEIGHT st) (containerHeight st) (sheetOpen st)
    (animatedContainerHeight st) (animatedBackdropMaskOpacity st)
    (animatedHeight st) (animatedTranslateY st)
    (cachedContentWrapperNativeTag st) (convertedHeight st) (rendered st)
    (log st ++ l).

Definition emit (e : Effect) : State -> State := emits [e].

Definition setContainerHeight (h : Q) (st : State) : State :=
  mkState (props st) (SCREEN_HEIGHT st) h (sheetOpen st)
    (animatedContainerHeight st) (animatedBackdropMaskOpacity st)
    (animatedHeight st) (animatedTranslateY st)
    (cachedContentWrapperNativeTag st) (convertedHeight st) (rendered st)
    (log st).

Definition setSheetOpen (b : bool) (st : State) : State :=
  mkState (props st) (SCREEN_HEIGHT st) (containerHeight st) b
    (animatedContainerHeight st) (animatedBackdropMaskOpacity st)
    (animatedHeight st) (animatedTranslateY st)
    (cachedContentWrapperNativeTag st) (convertedHeight st) (rendered st)
    (log st).

Definition set_cached (t : option Z) (st : State) : State :=
  mkState (props st) (SCREEN_HEIGHT st) (containerHeight st) (sheetOpen st)
    (animatedContainerHeight st) (animatedBackdropMaskOpacity st)
    (animatedHeight st) (animatedTranslateY st) t (convertedHeight st)
    (rendered st) (log st).

Definition set_convertedHeight (h : Q) (st : State) : State :=
  mkState (props st) (SCREEN_HEIGHT st) (containerHeight st) (sheetOpen st)
    (animatedContainerHeight st) (animatedBackdropMaskOpacity st)
    (animatedHeight st) (animatedTranslateY st)
    (cachedContentWrapperNativeTag st) h (rendered st) (log st).

Definition set_rendered (d : option Deps) (st : State) : State :=
  mkState (props st) (SCREEN_HEIGHT st) (containerHeight st) (sheetOpen st)
    (animatedContainerHeight st) (animatedBackdropMaskOpacity st)
    (animatedHeight st) (animatedTranslateY st)
    (cachedContentWrapperNativeTag st) (convertedHeight st) d (log st).

Definition set_env (p : Props) (screen : Q) (st : State) : State :=
  mkState p screen (containerHeight st) (sheetOpen st)
    (animatedContainerHeight st) (animatedBackdropMaskOpacity st)
    (animatedHeight st) (animatedTranslateY st)
    (cachedContentWrapperNativeTag st) (convertedHeight st) (rendered st)
    (log st).

(** Handlers are state transformers, run in sequence. *)
Definition Action : Type := State -> State.

Definition skip : Action := fun st => st.
Definition seq (a b : Action) : Action := fun st => b (a st).
Definition when (c : bool) (a : Action) : Action := if c then a else skip.

Declare Scope action_scope.
Delimit Scope action_scope with action.
Notation "a ;; b" := (seq a b) (at level 61, right associativity) : action_scope.

(* ================================================================== *)
(** ** [Animators] (lines 121-177) *)

Module Animators.

Definition animateContainerHeight (toValue : Q) : Timing :=
  mkTiming toValue 50 defaultEasing.

Definition animateBackdropMaskOpacity (toValue : Q) : Timing :=
  mkTiming toValue 200 defaultEasing.

(** [duration || 500]: an omitted or zero duration gives the default. *)
Definition animateHeight (a : ANIMATIONS) (toValue : Q) (duration : option Z)
  : Timing :=
  let DEFAULT_DURATION :=
    match duration with
    | Some d => if Z.eqb d 0 then 500%Z else d
    | None => 500%Z
    end in
  mkTiming toValue
    (if ANIMATIONS_eqb a SPRING then (DEFAULT_DURATION + 100)%Z
     else DEFAULT_DURATION)
    (if ANIMATIONS_eqb a SLIDE then slideEasingFn else springEasingFn).

Definition animateTranslateY (a : ANIMATIONS) (toValue : Q) : Timing :=
  let DEFAULT_DURATION := 500%Z in
  mkTiming toValue DEFAULT_DURATION
    (if ANIMATIONS_eqb a SLIDE then slideEasingFn else springEasingFn).

End Animators.

Import Animators.

(* ================================================================== *)
(** ** [Animated.Value]: [setValue], [start], and the end of an animation *)

Module Animated.

Section Callback.
(** What the engine does with the callback of an animation that a
    command displaces. *)
Variable onStop : EndCallback -> Action.

(** The animation in flight on [c] is dropped and its callback runs with
    [finished: false]; both [setValue] and [start] begin with this. *)
Definition stopWith (c : Channel) : Action := fun st =>
  match animation (chan c st) with
  | Some (_, cb) =>
      onStop cb
        (emit (Ended c false)
           (set_chan c (mkAnimated (value (chan c st)) None) st))
  | None => st
  end.

Definition setValueWith (c : Channel) (v : number) : Action :=
  (stopWith c ;;
   (fun st => set_chan c (mkAnimated v None) st) ;;
   emit (Assigned c v))%action.

Definition startWith (c : Channel) (t : Timing) (cb : EndCallback) : Action :=
  (stopWith c ;;
   (fun st => set_chan c (mkAnimated (value (chan c st)) (Some (t, cb))) st) ;;
   emit (Started c t))%action.

(** Lines 318-328: the arrow function [closeBottomSheet] passes to
    [start], with [anim.finished] as [finished]. *)
Definition backdropFaded (a : ANIMATIONS) (finished : bool) : Action :=
  if finished then
    if ANIMATIONS_eqb a FADE then
      (startWith ContainerHeight (animateContainerHeight 0) NoCallback ;;
       setValueWith Height (Fin 0))%action
    else
      (startWith Height (animateHeight a 0 None) NoCallback ;;
       startWith ContainerHeight (animateContainerHeight 0) NoCallback)%action
  else skip.

Definition runCallbackWith (cb : EndCallback) (finished : bool) : Action :=
  match cb with
  | NoCallback => skip
  | BackdropFaded a => backdropFaded a finished
  end.
End Callback.

(** A displaced animation reports [finished: false].  The callbacks of
    this component do nothing then ([runCallbackWith_stopped] below), so
    what their own commands would displace in turn is never asked for. *)
Definition stopped (cb : EndCallback) : Action :=
  runCallbackWith (fun _ => skip) cb false.

Definition runCallback : EndCallback -> bool -> Action :=
  runCallbackWith stopped.

Definition setValue : Channel -> number -> Action := setValueWith stopped.

Definition start : Channel -> Timing -> EndCallback -> Action :=
  startWith stopped.

(** The animation in flight on [c] runs to its end: the value reaches
    [toValue] and the callback runs with [finished: true]. *)
Definition finish (c : Channel) : Action := fun st =>
  match animation (chan c st) with
  | Some (t, cb) =>
      runCallback cb true
        (emit (Ended c true)
           (set_chan c (mkAnimated (Fin (toValue t)) None) st))
  | None => st
  end.

End Animated.

Import Animated.

(* ================================================================== *)
(** ** Events the component reacts to

    [Close] stands for [ref.close()] and for a press on the backdrop, whose
    handler is [closeBottomSheet] too.  Keyboard notifications reach the
    component through the hook [useHandleKeyboardEvents], whose file is not
    among the sources: they are not among the events. *)

Inductive Event : Type :=
| Open                                      (* ref.open() *)
| Close                                     (* ref.close() *)
| Render (p : Props) (screen : Q)           (* new props or window height *)
| ContainerLayout (newHeight : Q)           (* onLayout of the measuring view *)
| ContentLayout (tag : option Z)            (* onLayout of the content container *)
| Move (view : PanView) (target : option Z) (dy : Q)
| Release (view : PanView) (target : option Z) (dy : Q)
| AnimationEnd (c : Channel).               (* the engine ends an animation *)

(* ================================================================== *)
(** ** Height resolution *)

Module HeightResolver.

(** [x] clamped to [[lo, hi]]. *)
Definition clamp (lo hi x : Q) : Q :=
  if Qltb x lo then lo else if Qltb hi x then hi else x.

(** Modelled from the spec: [utils/convertHeight], which the component
    calls as [convertHeight(height, containerHeight, hideHandleBar)] and
    whose file is not among the sources.  Section 4.1 of the specification:
    a pixel height is clamped to [[0, containerHeight]]; a percentage is
    [containerHeight * p / 100], clamped likewise; "auto" is
    [containerHeight] minus a fixed chrome allowance when the handle bar is
    visible, and [containerHeight] when it is hidden.  The result is a
    ResolvedHeight, which section 3 defines as non-negative and at most the
    container height (sections 2 and 7: the resolver clamps), so the value
    for "auto" is kept in [[0, containerHeight]] like the other two.  The
    allowance is a constant of the missing file and stays a parameter. *)
Definition resolve (allowance : Q)
  (spec : HeightSpec) (containerHeight : Q) (handleBarHidden : bool) : Q :=
  match spec with
  | Pixels n => clamp 0 containerHeight n
  | Percent p => clamp 0 containerHeight (containerHeight * p / 100)
  | Auto =>
      clamp 0 containerHeight
        (if handleBarHidden then containerHeight
         else containerHeight - allowance)
  end.

(** [0 <= x <= hi], decided. *)
Definition within (hi x : Q) : bool := Qle_bool 0 x && Qle_bool x hi.

End HeightResolver.

(* ================================================================== *)
(** ** Reading the log *)

(** The entry a command on [c] adds for the animation it displaces. *)
Definition displaced (c : Channel) (st : State) : list Effect :=
  match animation (chan c st) with
  | Some _ => [Ended c false]
  | None => []
  end.

(** A command on the content-height or the container-height channel. *)
Definition body_command (e : Effect) : bool :=
  match e with
  | Started ContainerHeight _ | Started Height _
  | Assigned ContainerHeight _ | Assigned Height _ => true
  | _ => false
  end.

(** The backdrop animation reports that it ran to its end. *)
Definition backdrop_completed (e : Effect) : bool :=
  match e with
  | Ended BackdropMaskOpacity true => true
  | _ => false
  end.

(** No command on the body channels comes before the first report of a
    completed backdrop animation. *)
Fixpoint fade_first (l : list Effect) : bool :=
  match l with
  | [] => true
  | e :: l' =>
      if backdrop_completed e then true
      else negb (body_command e) && fade_first l'
  end.

Definition no_body_command (l : list Effect) : bool :=
  forallb (fun e => negb (body_command e)) l.

(** Events that are neither a call of the host nor a gesture: time passing
    in the engine, renders and layout. *)
Definition passive (ev : Event) : bool :=
  match ev with
  | AnimationEnd _ | Render _ _ | ContainerLayout _ | ContentLayout _ => true
  | Open | Close | Move _ _ _ | Release _ _ _ => false
  end.

Definition is_percentage (c : ContainerHeightProp) : bool :=
  match c with
  | CHString _ => true
  | _ => false
  end.

(** An event that keeps [hideBackdrop] set and brings no percentage
    [containerHeight]: any event but a render with other props. *)
Definition keeps_backdrop_hidden (ev : Event) : bool :=
  match ev with
  | Render p _ => hideBackdrop p && negb (is_percentage (passedContainerHeight p))
  | _ => true
  end.

Definition callback_of (v : AnimatedValue) : EndCallback :=
  match animation v with
  | Some (_, cb) => cb
  | None => NoCallback
  end.

(** Only the backdrop animation is ever started with a callback. *)
Definition callbacks_on_backdrop_only (st : State) : Prop :=
  callback_of (animatedContainerHeight st) = NoCallback
  /\ callback_of (animatedHeight st) = NoCallback
  /\ callback_of (animatedTranslateY st) = NoCallback.

Definition Easing_eqb (a b : Easing) : bool :=
  match a, b with
  | defaultEasing, defaultEasing
  | slideEasingFn, slideEasingFn
  | springEasingFn, springEasingFn => true
  | _, _ => false
  end.

(** What [Animators] can have built: an entry of the log that starts an
    animation carries the duration and easing of its channel's animator, a
    backdrop animation goes to 0 or to 1, and no entry concerns the
    translation. *)
Definition animator_made (e : Effect) : bool :=
  match e with
  | Started ContainerHeight t =>
      Z.eqb (duration t) 50 && Easing_eqb (easing t) defaultEasing
  | Started BackdropMaskOpacity t =>
      Z.eqb (duration t) 200 && Easing_eqb (easing t) defaultEasing
      && (Qeq_bool (toValue t) 0 || Qeq_bool (toValue t) 1)
  | Started Height t =>
      (Z.eqb (duration t) 500 && Easing_eqb (easing t) slideEasingFn)
      || (Z.eqb (duration t) 600 && Easing_eqb (easing t) springEasingFn)
  | Started TranslateY _ | Assigned TranslateY _ | Ended TranslateY _ => false
  | _ => true
  end.

(** Events whose handler can store the open flag. *)
Definition may_flip_open (ev : Event) : bool :=
  match ev with
  | Open | Close | Release _ _ _ => true
  | _ => false
  end.

Definition is_gesture (ev : Event) : bool :=
  match ev with
  | Move _ _ _ | Release _ _ _ => true
  | _ => false
  end.

(** The sheet at rest, closed: the flag is off and the backdrop opacity,
    the content height and the container height hold 0 with nothing in
    flight. *)
Definition collapsed (st : State) : Prop :=
  sheetOpen st = false
  /\ animatedBackdropMaskOpacity st = mkAnimated (Fin 0) None
  /\ animatedHeight st = mkAnimated (Fin 0) None
  /\ animatedContainerHeight st = mkAnimated (Fin 0) None.


Definition is_content_layout (ev : Event) : bool :=
  match ev with
  | ContentLayout _ => true
  | _ => false
  end.

(* ================================================================== *)
(** ** The opacity of the content container (lines 179-189) *)

Module Interpolation.

(** One segment of [interpolate] with [extrapolate: 'clamp'] and the default
    linear easing: the input is brought into [[inMin, inMax]] and mapped
    linearly onto [[outMin, outMax]]. *)
Definition segment (inMin inMax outMin outMax input : Q) : Q :=
  let result := if Qltb input inMin then inMin else input in
  let result := if Qltb inMax result then inMax else result in
  (result - inMin) / (inMax - inMin) * (outMax - outMin) + outMin.

(** [interpolate] for [inputRange: [0, 0.5, 1]] and
    [outputRange: [0, 0.3, 1]]: the first segment serves every input up to
    0.5, the second the others, [NaN] among them. *)
Definition interpolateQ (q : Q) : Q :=
  if Qle_bool q (1 # 2)
  then segment 0 (1 # 2) 0 (3 # 10) q
  else segment (1 # 2) 1 (3 # 10) 1 q.

Definition interpolate (x : number) : number :=
  match x with
  | Fin q => Fin (interpolateQ q)
  | NegInfinity => Fin 0
  | PosInfinity => Fin 1
  | NaN => NaN
  end.

(** [interpolatedOpacity]: under fade the backdrop opacity interpolated,
    otherwise the opacity of the [style] prop, if it has one. *)
Definition interpolatedOpacity
  (a : ANIMATIONS) (styleOpacity : option number) (st : State)
  : option number :=
  if ANIMATIONS_eqb a FADE
  then Some (interpolate (value (animatedBackdropMaskOpacity st)))
  else styleOpacity.

(** [0 <= x <= 1] on a result. *)
Definition in_unit (x : number) : bool :=
  match x with
  | Fin q => Qle_bool 0 q && Qle_bool q 1
  | _ => false
  end.

Definition is_NaN (x : number) : bool :=
  match x with
  | NaN => true
  | _ => false
  end.

End Interpolation.

(* ================================================================== *)
(** ** Sample inputs *)

Module Sample.

(** A chrome allowance for [HeightResolver.resolve]. *)
Definition allowance : Q := 25.

Definition convertHeight : HeightSpec -> Q -> bool -> Q :=
  HeightResolver.resolve allowance.

Definition normalizeHeight (h : Q) : Q := h.

(** [<BottomSheet height={300} />] *)
Definition slide_props : Props :=
  mkProps SLIDE (Pixels 300) false false false true CHUndefined false.

(** [<BottomSheet height={300} animationType="fade" />] *)
Definition fade_props : Props :=
  mkProps FADE (Pixels 300) false false false true CHUndefined false.

(** [<BottomSheet height={300} hideBackdrop containerHeight={500} />] *)
Definition hidden_props : Props :=
  mkProps SLIDE (Pixels 300) false false false true (CHNumber 500) true.

(** [<BottomSheet height={300} containerHeight={500} />] *)
Definition numeric_props : Props :=
  mkProps SLIDE (Pixels 300) false false false true (CHNumber 500) false.

(** [<BottomSheet height="50%" containerHeight="50%" />] *)
Definition percent_props : Props :=
  mkProps SLIDE (Percent 50) false false false true (CHString "50%") false.

(** [<BottomSheet height={300} disableBodyPanning disableHandleBarPanning />] *)
Definition locked_props : Props :=
  mkProps SLIDE (Pixels 300) false true true true CHUndefined false.

(** [<BottomSheet height={300} hideHandleBar />] *)
Definition bare_props : Props :=
  mkProps SLIDE (Pixels 300) true false false true CHUndefined false.

(** [<BottomSheet height={500} />] *)
Definition tall_props : Props :=
  mkProps SLIDE (Pixels 500) false false false true CHUndefined false.

(** The window is 800 high. *)
Definition screen : Q := 800.

End Sample.

(* ================================================================== *)
(** ** The component *)

Section BottomSheet.

(** [utils/convertHeight] and [utils/normalizeHeight]: imported by the
    component, their files are not among the sources. *)
Variable convertHeight : HeightSpec -> Q -> bool -> Q.
Variable normalizeHeight : Q -> Q.

Local Open Scope action_scope.

(** *** Rendering: [useMemo] (lines 200-208) and [useLayoutEffect]
    (lines 347-368) *)

Definition deps_of (st : State) : Deps :=
  mkDeps (containerHeight st) (height (props st)) (sheetOpen st)
    (animationType (props st)) (passedContainerHeight (props st))
    (SCREEN_HEIGHT st) (hideBackdrop (props st)).

(** [containerHeight, height, sheetOpen, animationType] *)
Definition memo_deps_changed (old : option Deps) (d : Deps) : bool :=
  match old with
  | None => true
  | Some o =>
      negb (Qeq_bool (d_containerHeight o) (d_containerHeight d)
            && HeightSpec_same (d_height o) (d_height d)
            && Bool.eqb (d_sheetOpen o) (d_sheetOpen d)
            && ANIMATIONS_eqb (d_animationType o) (d_animationType d))
  end.

(** [passedContainerHeight, SCREEN_HEIGHT, sheetOpen, containerHeight,
    hideBackdrop] *)
Definition effect_deps_changed (old : option Deps) (d : Deps) : bool :=
  match old with
  | None => true
  | Some o =>
      negb (ContainerHeightProp_same (d_passedContainerHeight o)
              (d_passedContainerHeight d)
            && Qeq_bool (d_SCREEN_HEIGHT o) (d_SCREEN_HEIGHT d)
            && Bool.eqb (d_sheetOpen o) (d_sheetOpen d)
            && Qeq_bool (d_containerHeight o) (d_containerHeight d)
            && Bool.eqb (d_hideBackdrop o) (d_hideBackdrop d))
  end.

Definition useMemo_convertedHeight : Action := fun st =>
  let newHeight :=
    convertHeight (height (props st)) (containerHeight st)
      (hideHandleBar (props st)) in
  (when (sheetOpen st)
     (if ANIMATIONS_eqb (animationType (props st)) FADE
      then setValue Height (Fin newHeight)
      else start Height
             (animateHeight (animationType (props st)) newHeight None)
             NoCallback) ;;
   set_convertedHeight newHeight) st.

Definition useLayoutEffect : Action := fun st =>
  if hideBackdrop (props st) then st
  else
    match passedContainerHeight (props st) with
    | CHNumber n =>
        (setContainerHeight (normalizeHeight n) ;;
         when (sheetOpen st) (setValue ContainerHeight (Fin n))) st
    | CHUndefined =>
        if negb (Qeq_bool (containerHeight st) (SCREEN_HEIGHT st)) then
          (setContainerHeight (SCREEN_HEIGHT st) ;;
           when (sheetOpen st)
             (setValue ContainerHeight (Fin (SCREEN_HEIGHT st)))) st
        else st
    | CHString _ => st
    end.

(** One render and its commit: the memo and the effect run when a
    dependency differs from the one the previous render saw. *)
Definition renderPass : Action := fun st =>
  let d := deps_of st in
  (when (memo_deps_changed (rendered st) d) useMemo_convertedHeight ;;
   when (effect_deps_changed (rendered st) d) useLayoutEffect ;;
   set_rendered (Some d)) st.

(** A state set by the effect asks for one more render; the second pass
    sets the same state again, which asks for none. *)
Definition commit : Action := renderPass ;; renderPass.

Definition initial (p : Props) (screen : Q) : State :=
  mkState p screen screen false
    (mkAnimated (Fin 0) None) (mkAnimated (Fin 0) None)
    (mkAnimated (Fin 0) None) (mkAnimated (Fin 0) None)
    None 0 None [].

Definition mount (p : Props) (screen : Q) : State :=
  commit (initial p screen).

(** *** [openBottomSheet] (lines 297-312) *)

Definition openBottomSheet : Action := fun st =>
  let a := animationType (props st) in
  (start ContainerHeight
     (animateContainerHeight
        (if hideBackdrop (props st) then convertedHeight st
         else containerHeight st))
     NoCallback ;;
   (if ANIMATIONS_eqb a FADE then
      setValue Height (Fin (convertedHeight st)) ;;
      start BackdropMaskOpacity (animateBackdropMaskOpacity 1) NoCallback
    else
      start BackdropMaskOpacity (animateBackdropMaskOpacity 1) NoCallback ;;
      start Height (animateHeight a (convertedHeight st) None) NoCallback) ;;
   setSheetOpen true) st.

(** *** [closeBottomSheet] (lines 314-332) *)

Definition closeBottomSheet : Action := fun st =>
  (start BackdropMaskOpacity (animateBackdropMaskOpacity 0)
     (BackdropFaded (animationType (props st))) ;;
   setSheetOpen false ;;
   emit KeyboardListenersRemoved ;;
   emit KeyboardDismissed) st.

(** *** [containerViewLayoutHandler] (lines 334-340) *)

Definition containerViewLayoutHandler (newHeight : Q) : Action := fun st =>
  (setContainerHeight newHeight ;;
   when (sheetOpen st) (setValue ContainerHeight (Fin newHeight))) st.

(** *** [extractNativeTag] (lines 285-292) *)

Definition extractNativeTag (tag : option Z) : Action := fun st =>
  when (falsy (cachedContentWrapperNativeTag st)) (set_cached tag) st.

(** *** [getPanHandlersFor] (lines 219-259) *)

(** Whether [getPanHandlersFor view] returns handlers rather than [null]. *)
Definition getPanHandlersFor (view : PanView) (st : State) : bool :=
  match view with
  | handlebar => negb (disableHandleBarPanning (props st))
  | contentwrapper => negb (disableBodyPanning (props st))
  end.

(** [PolymorphicHandleBar] renders nothing when [hideHandleBar] is set. *)
Definition is_rendered (view : PanView) (st : State) : bool :=
  match view with
  | handlebar => negb (hideHandleBar (props st))
  | contentwrapper => true
  end.

Definition onMoveShouldSetPanResponder
  (view : PanView) (target : option Z) (st : State) : bool :=
  match view with
  | handlebar => true
  | contentwrapper => loose_eq (cachedContentWrapperNativeTag st) target
  end.

Definition onPanResponderMove (dy : Q) : Action := fun st =>
  if Qltb 0 dy then
    let relativeOpacity := JS.sub (Fin 1) (JS.div dy (convertedHeight st)) in
    (setValue BackdropMaskOpacity relativeOpacity ;;
     when (negb (ANIMATIONS_eqb (animationType (props st)) FADE))
       (setValue Height (Fin (convertedHeight st - dy)))) st
  else st.

Definition onPanResponderRelease (dy : Q) : Action := fun st =>
  if geb dy (div64 (convertedHeight st) 3) && closeOnDragDown (props st) then
    closeBottomSheet st
  else
    (setValue BackdropMaskOpacity (Fin 1) ;;
     when (negb (ANIMATIONS_eqb (animationType (props st)) FADE))
       (start Height
          (animateHeight (animationType (props st)) (convertedHeight st) None)
          NoCallback)) st.

(** The sheet responds to a gesture on [view] when the view is rendered
    with pan handlers and [onMoveShouldSetPanResponder] claims the move.
    The target of a touch does not change while the touch lasts, so the
    test gives one answer for all the events of a gesture. *)
Definition captures (view : PanView) (target : option Z) (st : State) : bool :=
  is_rendered view st
  && getPanHandlersFor view st
  && onMoveShouldSetPanResponder view target st.

(** The measuring view exists only for a string [containerHeight] prop
    (line 372). *)
Definition measuring_view (st : State) : bool :=
  is_percentage (passedContainerHeight (props st)).

Definition handle (ev : Event) : Action :=
  match ev with
  | Open => openBottomSheet
  | Close => closeBottomSheet
  | Render p screen => set_env p screen
  | ContainerLayout h =>
      fun st => when (measuring_view st) (containerViewLayoutHandler h) st
  | ContentLayout tag => extractNativeTag tag
  | Move view target dy =>
      fun st => when (captures view target st) (onPanResponderMove dy) st
  | Release view target dy =>
      fun st => when (captures view target st) (onPanResponderRelease dy) st
  | AnimationEnd c => finish c
  end.

(** React renders again after new props or a new window height, and
    after a handler in which a state setter stored a different value. *)
Definition needs_render (ev : Event) (before after : State) : bool :=
  match ev with
  | Render _ _ => true
  | _ =>
      negb (Qeq_bool (containerHeight before) (containerHeight after)
            && Bool.eqb (sheetOpen before) (sheetOpen after))
  end.

Definition step (st : State) (ev : Event) : State :=
  let st' := handle ev st in
  if needs_render ev st st' then commit st' else st'.

Definition run (st : State) (evs : list Event) : State :=
  fold_left step evs st.

(** Nothing is pending: a render now would find the dependencies of the
    memo and of the effect as the last render saw them. *)
Definition in_sync (st : State) : Prop :=
  memo_deps_changed (rendered st) (deps_of st) = false
  /\ effect_deps_changed (rendered st) (deps_of st) = false.

(** Without a [containerHeight] prop and with the backdrop shown, the
    stored container height is the window height. *)
Definition tracks_window (st : State) : Prop :=
  hideBackdrop (props st) = false ->
  passedContainerHeight (props st) = CHUndefined ->
  Qeq_bool (containerHeight st) (SCREEN_HEIGHT st) = true.

(* ================================================================ *)
(** ** Facts about the engine *)

Lemma Qltb_lt (a b : Q) : Qltb a b = true <-> a < b.
Proof.
  unfold Qltb. rewrite negb_true_iff.
  split; intro H.
  - apply Qnot_le_lt. intro Hle. apply Qle_bool_iff in Hle. congruence.
  - destruct (Qle_bool b a) eqn:E; [|reflexivity].
    apply Qle_bool_iff in E. apply Qle_not_lt in E. contradiction.
Qed.

Lemma Qltb_ge (a b : Q) : Qltb a b = false <-> b <= a.
Proof.
  unfold Qltb. rewrite negb_false_iff. apply Qle_bool_iff.
Qed.

Lemma div_finite (a b : Q) : ~ b == 0 -> JS.div a b = Fin (a / b).
Proof.
  intro Hb. unfold JS.div.
  destruct (Qeq_bool b 0) eqn:E; [|reflexivity].
  apply Qeq_bool_iff in E. contradiction.
Qed.

Lemma div_by_zero (a b : Q) : b == 0 -> 0 < a -> JS.div a b = PosInfinity.
Proof.
  intros Hb Ha. unfold JS.div.
  apply Qeq_bool_iff in Hb. rewrite Hb.
  apply Qgt_alt in Ha. rewrite Ha. reflexivity.
Qed.

(** A callback told [finished: false] does nothing, whatever the engine
    would do with the animations its commands displace. *)
Lemma runCallbackWith_stopped k cb st : runCallbackWith k cb false st = st.
Proof. destruct cb; reflexivity. Qed.

Lemma stopped_skip cb st : stopped cb st = st.
Proof. apply runCallbackWith_stopped. Qed.

Lemma stopped_is_runCallback cb st : stopped cb st = runCallback cb false st.
Proof.
  unfold runCallback. now rewrite stopped_skip, runCallbackWith_stopped.
Qed.

Lemma set_chan_same c st :
  set_chan c (chan c st) st = st.
Proof. destruct st, c; reflexivity. Qed.

Lemma stop_nf c st :
  stopWith stopped c st
  = emits (displaced c st)
      (set_chan c (mkAnimated (value (chan c st)) None) st).
Proof.
  unfold stopWith, displaced.
  destruct (animation (chan c st)) as [[t cb]|] eqn:E.
  - now rewrite stopped_skip.
  - replace (mkAnimated (value (chan c st)) None) with (chan c st)
      by (destruct (chan c st); simpl in E; now subst).
    rewrite set_chan_same. destruct st; unfold emits; simpl.
    now rewrite app_nil_r.
Qed.

Lemma setValue_nf c v st :
  setValue c v st
  = emits (displaced c st ++ [Assigned c v])
      (set_chan c (mkAnimated v None) st).
Proof.
  unfold setValue, setValueWith, seq. rewrite stop_nf.
  unfold emit, emits, set_chan; simpl.
  rewrite <- app_assoc. destruct c; reflexivity.
Qed.

Lemma start_nf c t cb st :
  start c t cb st
  = emits (displaced c st ++ [Started c t])
      (set_chan c (mkAnimated (value (chan c st)) (Some (t, cb))) st).
Proof.
  unfold start, startWith, seq. rewrite stop_nf.
  unfold emit, emits, set_chan; simpl.
  rewrite <- app_assoc. destruct c; reflexivity.
Qed.

Lemma setValueWith_nf c v st :
  setValueWith stopped c v st
  = emits (displaced c st ++ [Assigned c v])
      (set_chan c (mkAnimated v None) st).
Proof. exact (setValue_nf c v st). Qed.

Lemma startWith_nf c t cb st :
  startWith stopped c t cb st
  = emits (displaced c st ++ [Started c t])
      (set_chan c (mkAnimated (value (chan c st)) (Some (t, cb))) st).
Proof. exact (start_nf c t cb st). Qed.

(** Project a field out of a state built by setters. *)
Ltac proj :=
  cbn [set_rendered set_convertedHeight setSheetOpen setContainerHeight
       set_cached set_env emits emit set_chan chan Channel_eqb
       props SCREEN_HEIGHT containerHeight sheetOpen
       animatedContainerHeight animatedBackdropMaskOpacity animatedHeight
       animatedTranslateY cachedContentWrapperNativeTag convertedHeight
       rendered log value animation callback_of].

Ltac proj_all :=
  cbn [set_rendered set_convertedHeight setSheetOpen setContainerHeight
       set_cached set_env emits emit set_chan chan Channel_eqb
       props SCREEN_HEIGHT containerHeight sheetOpen
       animatedContainerHeight animatedBackdropMaskOpacity animatedHeight
       animatedTranslateY cachedContentWrapperNativeTag convertedHeight
       rendered log value animation callback_of] in *.

Ltac open_actions :=
  unfold seq, when, skip; rewrite ?setValue_nf, ?start_nf; proj.

(* ================================================================ *)
(** ** The open flag *)

Lemma sheetOpen_useMemo st :
  sheetOpen (useMemo_convertedHeight st) = sheetOpen st.
Proof.
  unfold useMemo_convertedHeight. open_actions.
  destruct (sheetOpen st) eqn:E; simpl; auto.
  destruct (ANIMATIONS_eqb _ _); open_actions; simpl; auto.
Qed.

Lemma sheetOpen_useLayoutEffect st :
  sheetOpen (useLayoutEffect st) = sheetOpen st.
Proof.
  unfold useLayoutEffect.
  destruct (hideBackdrop _); auto.
  destruct (passedContainerHeight _); auto;
    [destruct (negb _); auto|];
    open_actions; destruct (sheetOpen st) eqn:E; open_actions; simpl; auto.
Qed.

Lemma sheetOpen_renderPass st :
  sheetOpen (renderPass st) = sheetOpen st.
Proof.
  unfold renderPass. open_actions.
  destruct (memo_deps_changed _ _), (effect_deps_changed _ _); proj;
    now rewrite ?sheetOpen_useLayoutEffect, ?sheetOpen_useMemo.
Qed.

Lemma sheetOpen_commit st : sheetOpen (commit st) = sheetOpen st.
Proof.
  unfold commit, seq. now rewrite !sheetOpen_renderPass.
Qed.

Lemma run_snoc st evs ev : run st (evs ++ [ev]) = step (run st evs) ev.
Proof. unfold run. now rewrite fold_left_app. Qed.

(** C2. Whatever calls, gestures, renders and engine events came before,
    and whatever animations are in flight, the open flag is [false] when
    [close()] returns; it stays so through the render that the call
    schedules; and it is so when [close()] follows [open()] at once. *)
Theorem close_leaves_sheet_closed (st : State) (evs : list Event) :
  sheetOpen (closeBottomSheet st) = false
  /\ sheetOpen (closeBottomSheet (openBottomSheet st)) = false
  /\ sheetOpen (run st (evs ++ [Close])) = false
  /\ sheetOpen (run st (evs ++ [Open; Close])) = false.
Proof.
  assert (Hstep : forall s, sheetOpen (step s Close) = false).
  { intro s. unfold step. simpl handle.
    destruct (needs_render _ _ _); now rewrite ?sheetOpen_commit. }
  repeat split; try reflexivity.
  - rewrite run_snoc. apply Hstep.
  - change [Open; Close] with ([Open] ++ [Close]).
    rewrite app_assoc, run_snoc. apply Hstep.
Qed.

(* ================================================================ *)
(** ** Gestures *)

Lemma Qeq_bool_same (x : Q) : Qeq_bool x x = true.
Proof. apply Qeq_bool_iff. reflexivity. Qed.

Lemma ANIMATIONS_eqb_eq a b : ANIMATIONS_eqb a b = true <-> a = b.
Proof. destruct a, b; simpl; split; congruence. Qed.

Lemma ANIMATIONS_eqb_neq a b : ANIMATIONS_eqb a b = false <-> a <> b.
Proof. destruct a, b; simpl; split; congruence. Qed.

(** What a move does, in one equation. *)
Lemma onPanResponderMove_nf dy st :
  onPanResponderMove dy st
  = if Qltb 0 dy then
      let opacity := JS.sub (Fin 1) (JS.div dy (convertedHeight st)) in
      let st1 :=
        emits (displaced BackdropMaskOpacity st
               ++ [Assigned BackdropMaskOpacity opacity])
          (set_chan BackdropMaskOpacity (mkAnimated opacity None) st) in
      if ANIMATIONS_eqb (animationType (props st)) FADE then st1
      else
        emits (displaced Height st
               ++ [Assigned Height (Fin (convertedHeight st - dy))])
          (set_chan Height
             (mkAnimated (Fin (convertedHeight st - dy)) None) st1)
    else st.
Proof.
  unfold onPanResponderMove.
  destruct (Qltb 0 dy); [|reflexivity].
  cbv zeta. open_actions.
  destruct (ANIMATIONS_eqb _ _); cbn [negb]; rewrite ?setValue_nf;
    unfold displaced; proj; reflexivity.
Qed.

(** A handler that stores no new state asks for no render. *)
Lemma step_without_render st ev :
  (forall p s, ev <> Render p s) ->
  containerHeight (handle ev st) = containerHeight st ->
  sheetOpen (handle ev st) = sheetOpen st ->
  step st ev = handle ev st.
Proof.
  intros Hev Hc Ho. unfold step. cbv zeta.
  replace (needs_render ev st (handle ev st)) with false; [reflexivity|].
  destruct ev; try (exfalso; eapply Hev; reflexivity);
    unfold needs_render; rewrite Hc, Ho, Qeq_bool_same, eqb_reflx;
    reflexivity.
Qed.

Lemma step_Move st view target dy :
  step st (Move view target dy)
  = if captures view target st then onPanResponderMove dy st else st.
Proof.
  rewrite step_without_render; try discriminate;
    cbn [handle]; unfold when, skip;
    destruct (captures view target st); try reflexivity;
    rewrite onPanResponderMove_nf;
    destruct (Qltb 0 dy); cbv zeta; try reflexivity;
    destruct (ANIMATIONS_eqb _ _); reflexivity.
Qed.

(** C5. A captured move with [dy > 0] assigns [1 - dy / convertedHeight]
    to the backdrop opacity at once ([setValue], no animation): the finite
    quotient when [convertedHeight] is not zero, and a value below zero,
    not clamped, when the drag is longer than the sheet is high.  Unless
    the style is fade it assigns [convertedHeight - dy] to the content
    height.  With [convertedHeight] at zero the quotient is JavaScript's
    [Infinity] and the opacity [-Infinity].  A move with [dy <= 0] changes
    nothing at all. *)
Theorem move_tracks_drag
  (st : State) (view : PanView) (target : option Z) (dy : Q) :
  captures view target st = true ->
  let h := convertedHeight st in
  let st' := step st (Move view target dy) in
  (0 < dy ->
     animatedBackdropMaskOpacity st'
     = mkAnimated (JS.sub (Fin 1) (JS.div dy h)) None
     /\ (~ h == 0 ->
         value (animatedBackdropMaskOpacity st') = Fin (1 - dy / h))
     /\ (0 < h -> h < dy ->
         JS.negative (value (animatedBackdropMaskOpacity st')) = true)
     /\ (h == 0 ->
         value (animatedBackdropMaskOpacity st') = NegInfinity)
     /\ (animationType (props st) <> FADE ->
         animatedHeight st' = mkAnimated (Fin (h - dy)) None)
     /\ (animationType (props st) = FADE ->
         animatedHeight st' = animatedHeight st)
     /\ In (Assigned BackdropMaskOpacity (JS.sub (Fin 1) (JS.div dy h)))
          (log st'))
  /\ (dy <= 0 -> st' = st).
Proof.
  intros Hcap h st'. subst st'.
  rewrite step_Move, Hcap, onPanResponderMove_nf. fold h.
  split.
  - intro Hdy. apply Qltb_lt in Hdy. rewrite Hdy. cbv zeta.
    assert (Hop : forall a : ANIMATIONS,
               animatedBackdropMaskOpacity
                 (if ANIMATIONS_eqb a FADE then
                    emits (displaced BackdropMaskOpacity st
                           ++ [Assigned BackdropMaskOpacity
                                 (JS.sub (Fin 1) (JS.div dy h))])
                      (set_chan BackdropMaskOpacity
                         (mkAnimated (JS.sub (Fin 1) (JS.div dy h)) None) st)
                  else
                    emits (displaced Height st
                           ++ [Assigned Height (Fin (h - dy))])
                      (set_chan Height (mkAnimated (Fin (h - dy)) None)
                         (emits (displaced BackdropMaskOpacity st
                                 ++ [Assigned BackdropMaskOpacity
                                       (JS.sub (Fin 1) (JS.div dy h))])
                            (set_chan BackdropMaskOpacity
                               (mkAnimated (JS.sub (Fin 1) (JS.div dy h))
                                  None) st))))
               = mkAnimated (JS.sub (Fin 1) (JS.div dy h)) None).
    { intro a. destruct (ANIMATIONS_eqb a FADE); reflexivity. }
    repeat split.
    + apply Hop.
    + intro Hh. rewrite Hop. cbn [value].
      rewrite (div_finite dy h Hh). reflexivity.
    + intros Hpos Hlong. rewrite Hop. cbn [value].
      rewrite div_finite by (intro E; rewrite E in Hpos; revert Hpos; apply Qlt_irrefl).
      cbn [JS.sub JS.negative]. apply Qltb_lt.
      assert (1 < dy / h) by (apply Qlt_shift_div_l; lra).
      lra.
    + intro Hh. rewrite Hop. cbn [value].
      apply Qltb_lt in Hdy. now rewrite (div_by_zero dy h Hh Hdy).
    + intro Hfade. apply ANIMATIONS_eqb_neq in Hfade. rewrite Hfade.
      reflexivity.
    + intro Hfade. apply ANIMATIONS_eqb_eq in Hfade. rewrite Hfade.
      reflexivity.
    + destruct (ANIMATIONS_eqb _ _); proj;
        rewrite ?in_app_iff; cbn [In]; tauto.
  - intro Hdy. apply Qltb_ge in Hdy. rewrite Hdy. reflexivity.
Qed.

(** C6. Under the fade style a move, captured or not, of any delta,
    leaves the content-height channel as it was, and with it the
    container-height and translation channels and every hook; the one
    thing a captured downward move changes is the backdrop opacity, set to
    [1 - dy / convertedHeight]. *)
Theorem fade_move_keeps_content_height
  (st : State) (view : PanView) (target : option Z) (dy : Q) :
  animationType (props st) = FADE ->
  let st' := step st (Move view target dy) in
  animatedHeight st' = animatedHeight st
  /\ animatedContainerHeight st' = animatedContainerHeight st
  /\ animatedTranslateY st' = animatedTranslateY st
  /\ st'
     = (if captures view target st && Qltb 0 dy then
          let opacity := JS.sub (Fin 1) (JS.div dy (convertedHeight st)) in
          emits (displaced BackdropMaskOpacity st
                 ++ [Assigned BackdropMaskOpacity opacity])
            (set_chan BackdropMaskOpacity (mkAnimated opacity None) st)
        else st).
Proof.
  intros Hfade st'. subst st'.
  rewrite step_Move, onPanResponderMove_nf.
  apply ANIMATIONS_eqb_eq in Hfade. rewrite Hfade.
  destruct (captures view target st), (Qltb 0 dy); cbv zeta;
    repeat split; reflexivity.
Qed.

(* ---------------------------------------------------------------- *)

Lemma onPanResponderRelease_snap_back dy st :
  geb dy (div64 (convertedHeight st) 3) && closeOnDragDown (props st) = false ->
  onPanResponderRelease dy st
  = let st1 :=
      emits (displaced BackdropMaskOpacity st
             ++ [Assigned BackdropMaskOpacity (Fin 1)])
        (set_chan BackdropMaskOpacity (mkAnimated (Fin 1) None) st) in
    if ANIMATIONS_eqb (animationType (props st)) FADE then st1
    else
      let t :=
        animateHeight (animationType (props st)) (convertedHeight st) None in
      emits (displaced Height st ++ [Started Height t])
        (set_chan Height
           (mkAnimated (value (animatedHeight st)) (Some (t, NoCallback)))
           st1).
Proof.
  intro H. unfold onPanResponderRelease. rewrite H. open_actions.
  destruct (ANIMATIONS_eqb _ _); cbn [negb]; rewrite ?start_nf;
    unfold displaced; proj; reflexivity.
Qed.


(* ---------------------------------------------------------------- *)

Lemma openBottomSheet_container st :
  animatedContainerHeight (openBottomSheet st)
  = mkAnimated (value (animatedContainerHeight st))
      (Some (animateContainerHeight
               (if hideBackdrop (props st) then convertedHeight st
                else containerHeight st),
             NoCallback)).
Proof.
  unfold openBottomSheet. cbv zeta.
  destruct (ANIMATIONS_eqb _ _); open_actions; reflexivity.
Qed.

(* ================================================================ *)
(** ** What a render can change *)

Ltac render_cases :=
  unfold renderPass, useMemo_convertedHeight, useLayoutEffect;
  cbv zeta; unfold seq, when, skip;
  repeat (rewrite ?setValue_nf, ?start_nf; proj;
          match goal with
          | |- context [if ?b then _ else _] => destruct b eqn:?
          | |- context [match passedContainerHeight ?p with _ => _ end] =>
              destruct (passedContainerHeight p) eqn:?
          end);
  rewrite ?setValue_nf, ?start_nf in *; proj_all.

(** A render never touches the props, the open flag, the cached tag, the
    backdrop opacity or the translation. *)
Lemma renderPass_frame st :
  props (renderPass st) = props st
  /\ SCREEN_HEIGHT (renderPass st) = SCREEN_HEIGHT st
  /\ sheetOpen (renderPass st) = sheetOpen st
  /\ cachedContentWrapperNativeTag (renderPass st)
     = cachedContentWrapperNativeTag st
  /\ animatedBackdropMaskOpacity (renderPass st)
     = animatedBackdropMaskOpacity st
  /\ animatedTranslateY (renderPass st) = animatedTranslateY st.
Proof. render_cases; repeat split; congruence. Qed.

(** With the backdrop hidden it leaves the container height alone, the
    state and the channel. *)
Lemma renderPass_hidden st :
  hideBackdrop (props st) = true ->
  containerHeight (renderPass st) = containerHeight st
  /\ animatedContainerHeight (renderPass st) = animatedContainerHeight st.
Proof. intro H. render_cases; split; congruence. Qed.

(** With the sheet closed it asks nothing of the engine. *)
Lemma renderPass_closed st :
  sheetOpen st = false ->
  log (renderPass st) = log st
  /\ (forall c, chan c (renderPass st) = chan c st).
Proof.
  intro H. render_cases; split; try congruence;
    intro c; destruct c; reflexivity.
Qed.

Lemma commit_frame st :
  props (commit st) = props st
  /\ SCREEN_HEIGHT (commit st) = SCREEN_HEIGHT st
  /\ sheetOpen (commit st) = sheetOpen st
  /\ cachedContentWrapperNativeTag (commit st)
     = cachedContentWrapperNativeTag st
  /\ animatedBackdropMaskOpacity (commit st)
     = animatedBackdropMaskOpacity st
  /\ animatedTranslateY (commit st) = animatedTranslateY st.
Proof.
  unfold commit, seq.
  destruct (renderPass_frame st) as (H1 & H2 & H3 & H4 & H5 & H6).
  destruct (renderPass_frame (renderPass st))
    as (G1 & G2 & G3 & G4 & G5 & G6).
  repeat split; congruence.
Qed.

Lemma commit_hidden st :
  hideBackdrop (props st) = true ->
  containerHeight (commit st) = containerHeight st
  /\ animatedContainerHeight (commit st) = animatedContainerHeight st.
Proof.
  intro H. unfold commit, seq.
  destruct (renderPass_hidden st H) as [H1 H2].
  destruct (renderPass_frame st) as (Hp & _).
  destruct (renderPass_hidden (renderPass st)) as [G1 G2];
    [congruence|].
  split; congruence.
Qed.

Lemma commit_closed st :
  sheetOpen st = false ->
  log (commit st) = log st /\ (forall c, chan c (commit st) = chan c st).
Proof.
  intro H. unfold commit, seq.
  destruct (renderPass_closed st H) as [H1 H2].
  destruct (renderPass_frame st) as (_ & _ & Ho & _).
  destruct (renderPass_closed (renderPass st)) as [G1 G2];
    [congruence|].
  split; [congruence|]. intro c. now rewrite G2.
Qed.

(** The effect with the backdrop hidden: line 348 returns at once. *)
Lemma useLayoutEffect_hidden st :
  hideBackdrop (props st) = true -> useLayoutEffect st = st.
Proof. intro H. unfold useLayoutEffect. now rewrite H. Qed.

(* ================================================================ *)
(** ** What a handler can change *)

Ltac handler_cases :=
  unfold handle, onPanResponderRelease, onPanResponderMove,
    openBottomSheet, closeBottomSheet, containerViewLayoutHandler,
    extractNativeTag, finish, runCallback, runCallbackWith,
    backdropFaded, start, setValue;
  cbv zeta; unfold seq, when, skip;
  repeat (rewrite ?setValueWith_nf, ?startWith_nf; proj;
          match goal with
          | |- context [if ?b then _ else _] => destruct b eqn:?
          | |- context [match animation ?v with _ => _ end] =>
              destruct (animation v) as [[? [|?]]|] eqn:?
          end);
  rewrite ?setValueWith_nf, ?startWith_nf in *; proj_all.

(** No handler but the layout handler of the measuring view stores a
    container height, and none touches the props. *)
Lemma handle_frame ev st :
  (forall p s, ev <> Render p s) ->
  props (handle ev st) = props st
  /\ SCREEN_HEIGHT (handle ev st) = SCREEN_HEIGHT st
  /\ (measuring_view st = false ->
      containerHeight (handle ev st) = containerHeight st).
Proof.
  intro Hev. destruct ev; try (exfalso; eapply Hev; reflexivity);
    handler_cases; repeat split; congruence.
Qed.

(* ================================================================ *)
(** ** Mounting *)

Lemma HeightSpec_same_refl h : HeightSpec_same h h = true.
Proof. destruct h; simpl; auto using Qeq_bool_same. Qed.

Lemma ContainerHeightProp_same_refl c : ContainerHeightProp_same c c = true.
Proof.
  destruct c; simpl; auto using Qeq_bool_same, String.eqb_refl.
Qed.

Lemma ANIMATIONS_eqb_refl a : ANIMATIONS_eqb a a = true.
Proof. now destruct a. Qed.

Lemma memo_deps_same d : memo_deps_changed (Some d) d = false.
Proof.
  unfold memo_deps_changed.
  now rewrite Qeq_bool_same, HeightSpec_same_refl, eqb_reflx,
    ANIMATIONS_eqb_refl.
Qed.

Lemma effect_deps_same d : effect_deps_changed (Some d) d = false.
Proof.
  unfold effect_deps_changed.
  now rewrite ContainerHeightProp_same_refl, !Qeq_bool_same, !eqb_reflx.
Qed.

(** A sheet mounted with the backdrop hidden holds the window height as
    container height and its height prop resolved against it. *)
Lemma mount_hidden p screen :
  hideBackdrop p = true ->
  props (mount p screen) = p
  /\ containerHeight (mount p screen) = screen
  /\ sheetOpen (mount p screen) = false
  /\ convertedHeight (mount p screen)
     = convertHeight (height p) screen (hideHandleBar p).
Proof.
  intro H. unfold mount, commit, seq.
  assert (E : renderPass (initial p screen)
              = set_rendered (Some (deps_of (initial p screen)))
                  (set_convertedHeight
                     (convertHeight (height p) screen (hideHandleBar p))
                     (initial p screen))).
  { unfold renderPass, useMemo_convertedHeight, useLayoutEffect.
    cbv zeta. unfold seq, when, skip. simpl. now rewrite H. }
  rewrite E. unfold renderPass. cbv zeta. unfold seq, when, skip. proj.
  replace (deps_of (set_rendered _ _)) with (deps_of (initial p screen))
    by reflexivity.
  rewrite memo_deps_same, effect_deps_same. proj.
  repeat split; reflexivity.
Qed.

(* ================================================================ *)
(** ** Opening *)

Lemma openBottomSheet_frame st :
  props (openBottomSheet st) = props st
  /\ containerHeight (openBottomSheet st) = containerHeight st
  /\ convertedHeight (openBottomSheet st) = convertedHeight st.
Proof. handler_cases; repeat split; reflexivity. Qed.

(** C8. [open()] starts the container-height transition towards
    [convertedHeight] when [hideBackdrop] is set and towards the stored
    container height when it is not.  With [hideBackdrop] set the
    transition is still the one in flight after the render that [open()]
    schedules, and on a sheet just mounted its target is the [height] prop
    resolved against the window height. *)
Theorem open_container_target (st : State) (p : Props) (screen : Q) :
  let target :=
    if hideBackdrop (props st) then convertedHeight st
    else containerHeight st in
  animation (animatedContainerHeight (openBottomSheet st))
  = Some (animateContainerHeight target, NoCallback)
  /\ toValue (animateContainerHeight target) = target
  /\ In (Started ContainerHeight (animateContainerHeight target))
       (log (openBottomSheet st))
  /\ (hideBackdrop (props st) = true ->
      animation (animatedContainerHeight (step st Open))
      = Some (animateContainerHeight (convertedHeight st), NoCallback))
  /\ (hideBackdrop p = true ->
      animation (animatedContainerHeight (step (mount p screen) Open))
      = Some (animateContainerHeight
                (convertHeight (height p) screen (hideHandleBar p)),
              NoCallback)).
Proof.
  intro target.
  assert (Hstep : forall s, hideBackdrop (props s) = true ->
             animation (animatedContainerHeight (step s Open))
             = Some (animateContainerHeight (convertedHeight s),
                     NoCallback)).
  { intros s Hs. unfold step. cbv zeta. cbn [handle].
    destruct (openBottomSheet_frame s) as (Hp & _).
    assert (Ho : animation (animatedContainerHeight (openBottomSheet s))
                 = Some (animateContainerHeight (convertedHeight s),
                         NoCallback)).
    { rewrite openBottomSheet_container, Hs. reflexivity. }
    destruct (needs_render _ _ _); [|exact Ho].
    destruct (commit_hidden (openBottomSheet s)) as [_ Hc];
      [congruence|].
    now rewrite Hc. }
  split; [|split; [|split; [|split]]].
  - rewrite openBottomSheet_container. reflexivity.
  - reflexivity.
  - unfold openBottomSheet. cbv zeta. fold target.
    destruct (ANIMATIONS_eqb _ _); open_actions;
      rewrite ?in_app_iff; cbn [In]; tauto.
  - apply Hstep.
  - intro Hp. destruct (mount_hidden p screen Hp) as (E1 & _ & _ & E4).
    rewrite Hstep by congruence. now rewrite E4.
Qed.

(* ================================================================ *)
(** ** The container height with the backdrop hidden *)

Lemma step_hidden st ev :
  hideBackdrop (props st) = true ->
  is_percentage (passedContainerHeight (props st)) = false ->
  keeps_backdrop_hidden ev = true ->
  hideBackdrop (props (step st ev)) = true
  /\ is_percentage (passedContainerHeight (props (step st ev))) = false
  /\ containerHeight (step st ev) = containerHeight st.
Proof.
  intros Hh Hs Hev.
  assert (Hkeep : forall s' : State,
             hideBackdrop (props s') = true ->
             is_percentage (passedContainerHeight (props s')) = false ->
             containerHeight s' = containerHeight st ->
             forall b : bool,
               let r := if b then commit s' else s' in
               hideBackdrop (props r) = true
               /\ is_percentage (passedContainerHeight (props r)) = false
               /\ containerHeight r = containerHeight st).
  { intros s' H1 H2 H3 [|]; cbv zeta; [|now repeat split].
    destruct (commit_frame s') as (Hp & _).
    destruct (commit_hidden s' H1) as [Hc _].
    rewrite Hp. repeat split; congruence. }
  unfold step. cbv zeta.
  destruct ev as [| |p' s'| | | | |];
    try (match goal with
         | |- context [needs_render ?e st _] =>
             destruct (handle_frame e st
                         ltac:(intros; discriminate)) as (Hp & _ & Hc);
             apply (Hkeep (handle e st));
             [ now rewrite Hp | now rewrite Hp
             | apply Hc; exact Hs ]
         end).
  cbn [keeps_backdrop_hidden] in Hev.
  apply andb_true_iff in Hev. destruct Hev as [E1 E2].
  apply negb_true_iff in E2.
  apply Hkeep; cbn [handle]; proj; auto.
Qed.

Lemma run_hidden evs : forall st,
  hideBackdrop (props st) = true ->
  is_percentage (passedContainerHeight (props st)) = false ->
  forallb keeps_backdrop_hidden evs = true ->
  containerHeight (run st evs) = containerHeight st.
Proof.
  induction evs as [|ev evs IH]; intros st Hh Hs Hevs; [reflexivity|].
  cbn [forallb] in Hevs. apply andb_true_iff in Hevs.
  destruct Hevs as [Hev Hevs].
  destruct (step_hidden st ev Hh Hs Hev) as (H1 & H2 & H3).
  change (run st (ev :: evs)) with (run (step st ev) evs).
  rewrite IH; auto.
Qed.

(** C10. With [hideBackdrop] set the layout effect returns its state
    unchanged.  From mounting on, while every render keeps [hideBackdrop]
    set and brings a numeric or no [containerHeight] prop, the stored
    container height is the window height the sheet was mounted with:
    through renders with any numeric prop value and any new window height,
    and through every call, gesture, layout and engine event between
    them. *)
Theorem hidden_backdrop_freezes_container_height
  (p : Props) (screen : Q) (evs : list Event) :
  hideBackdrop p = true ->
  is_percentage (passedContainerHeight p) = false ->
  forallb keeps_backdrop_hidden evs = true ->
  (forall st, hideBackdrop (props st) = true -> useLayoutEffect st = st)
  /\ containerHeight (mount p screen) = screen
  /\ containerHeight (run (mount p screen) evs) = screen
  /\ (forall st,
        hideBackdrop (props st) = true ->
        is_percentage (passedContainerHeight (props st)) = false ->
        containerHeight (run st evs) = containerHeight st).
Proof.
  intros Hh Hs Hevs.
  destruct (mount_hidden p screen Hh) as (Hp & Hc & _).
  split; [exact useLayoutEffect_hidden|]. split; [exact Hc|]. split.
  - rewrite run_hidden; auto; now rewrite Hp.
  - intros st H1 H2. now apply run_hidden.
Qed.

(* ================================================================ *)
(** ** Callbacks sit on the backdrop channel only *)

Ltac use_animations :=
  repeat match goal with
    | E : animation ?v = _, H : context [animation ?v] |- _ =>
        lazymatch type of H with
        | animation v = _ => fail
        | _ => rewrite E in H
        end
    end.

Lemma handle_callbacks ev st :
  callbacks_on_backdrop_only st ->
  callbacks_on_backdrop_only (handle ev st).
Proof.
  unfold callbacks_on_backdrop_only. intros (H1 & H2 & H3).
  destruct ev as [| | | | | | |c]; try destruct c;
    handler_cases; use_animations;
    repeat split; try reflexivity; try assumption; try congruence.
Qed.

Lemma renderPass_callbacks st :
  callbacks_on_backdrop_only st ->
  callbacks_on_backdrop_only (renderPass st).
Proof.
  unfold callbacks_on_backdrop_only. intros (H1 & H2 & H3).
  render_cases; repeat split; try reflexivity; assumption.
Qed.

Lemma commit_callbacks st :
  callbacks_on_backdrop_only st ->
  callbacks_on_backdrop_only (commit st).
Proof.
  intro H. unfold commit, seq. now apply renderPass_callbacks, renderPass_callbacks.
Qed.

Lemma step_callbacks st ev :
  callbacks_on_backdrop_only st ->
  callbacks_on_backdrop_only (step st ev).
Proof.
  intro H. unfold step. cbv zeta.
  destruct (needs_render _ _ _);
    [apply commit_callbacks|]; now apply handle_callbacks.
Qed.

Lemma run_callbacks evs : forall st,
  callbacks_on_backdrop_only st ->
  callbacks_on_backdrop_only (run st evs).
Proof.
  induction evs as [|ev evs IH]; intros st H; [exact H|].
  apply (IH (step st ev)). now apply step_callbacks.
Qed.

Lemma mount_callbacks p screen :
  callbacks_on_backdrop_only (mount p screen).
Proof.
  apply commit_callbacks. repeat split.
Qed.

(* ================================================================ *)
(** ** The closed sheet while nothing interacts with it *)

Lemma passive_handle ev st :
  sheetOpen st = false ->
  callbacks_on_backdrop_only st ->
  passive ev = true ->
  sheetOpen (handle ev st) = false
  /\ exists l,
      log (handle ev st) = log st ++ l
      /\ ((no_body_command l = true
           /\ (callback_of (animatedBackdropMaskOpacity st) = NoCallback ->
               callback_of (animatedBackdropMaskOpacity (handle ev st))
               = NoCallback))
          \/ (callback_of (animatedBackdropMaskOpacity st) <> NoCallback
              /\ exists l', l = Ended BackdropMaskOpacity true :: l')).
Proof.
  unfold callbacks_on_backdrop_only. intros Ho (H1 & H2 & H3) Hev.
  destruct ev as [| | | | | | |c]; try discriminate; try destruct c;
    handler_cases; unfold callback_of in *; use_animations;
    try congruence; (split; [assumption|]);
    first
      [ exists []; rewrite app_nil_r; split; [reflexivity|];
        left; split; [reflexivity | auto]
      | eexists; split; [rewrite <- ?app_assoc; reflexivity|];
        first
          [ left; split; [reflexivity | auto; intros; reflexivity]
          | right; split;
            [ match goal with
              | E : animation _ = Some (_, BackdropFaded _) |- _ =>
                  rewrite E
              end; discriminate
            | eexists; reflexivity ] ] ].
Qed.

Lemma render_if_closed (b : bool) st :
  sheetOpen st = false ->
  let r := if b then commit st else st in
  sheetOpen r = false /\ log r = log st /\ (forall c, chan c r = chan c st).
Proof.
  intro H. destruct b; cbv zeta; [|now repeat split].
  destruct (commit_closed st H) as [H1 H2].
  destruct (commit_frame st) as (_ & _ & H3 & _).
  repeat split; [congruence | exact H1 | exact H2].
Qed.

Lemma passive_step ev st :
  sheetOpen st = false ->
  callbacks_on_backdrop_only st ->
  passive ev = true ->
  sheetOpen (step st ev) = false
  /\ callbacks_on_backdrop_only (step st ev)
  /\ exists l,
      log (step st ev) = log st ++ l
      /\ ((no_body_command l = true
           /\ (callback_of (animatedBackdropMaskOpacity st) = NoCallback ->
               callback_of (animatedBackdropMaskOpacity (step st ev))
               = NoCallback))
          \/ (callback_of (animatedBackdropMaskOpacity st) <> NoCallback
              /\ exists l', l = Ended BackdropMaskOpacity true :: l')).
Proof.
  intros Ho Hcb Hev.
  destruct (passive_handle ev st Ho Hcb Hev) as (Ho' & l & Hl & Hcases).
  split; [|split; [now apply step_callbacks|]].
  - unfold step. cbv zeta.
    now destruct (render_if_closed
                    (needs_render ev st (handle ev st)) _ Ho').
  - exists l. unfold step. cbv zeta.
    destruct (render_if_closed
                (needs_render ev st (handle ev st)) _ Ho')
      as (_ & Hlog & Hchan).
    cbv zeta in Hlog, Hchan. rewrite Hlog.
    specialize (Hchan BackdropMaskOpacity). cbn [chan] in Hchan.
    rewrite Hchan. split; assumption.
Qed.

Lemma no_body_command_app l1 l2 :
  no_body_command (l1 ++ l2) = no_body_command l1 && no_body_command l2.
Proof. apply forallb_app. Qed.

Lemma fade_first_after_quiet l1 l2 :
  no_body_command l1 = true ->
  fade_first l2 = true ->
  fade_first (l1 ++ l2) = true.
Proof.
  induction l1 as [|e l1 IH]; intros H1 H2; [exact H2|].
  cbn [no_body_command forallb] in H1. apply andb_true_iff in H1.
  destruct H1 as [He Hl]. cbn [app fade_first].
  destruct (backdrop_completed e); [reflexivity|].
  rewrite He. now apply IH.
Qed.

(** After a close, while nothing interacts with the sheet, the body
    channels get no command before the backdrop reports completion. *)
Lemma passive_run_fade_first evs : forall st,
  sheetOpen st = false ->
  callbacks_on_backdrop_only st ->
  forallb passive evs = true ->
  exists l, log (run st evs) = log st ++ l /\ fade_first l = true.
Proof.
  induction evs as [|ev evs IH]; intros st Ho Hcb Hevs.
  - exists []. now rewrite app_nil_r.
  - cbn [forallb] in Hevs. apply andb_true_iff in Hevs.
    destruct Hevs as [Hev Hevs].
    destruct (passive_step ev st Ho Hcb Hev)
      as (Ho' & Hcb' & l1 & Hl1 & Hcases).
    destruct (IH (step st ev) Ho' Hcb' Hevs) as (l2 & Hl2 & Hf2).
    exists (l1 ++ l2). change (run st (ev :: evs)) with (run (step st ev) evs).
    rewrite Hl2, Hl1, app_assoc. split; [reflexivity|].
    destruct Hcases as [[Hq _] | (_ & l' & ->)].
    + now apply fade_first_after_quiet.
    + reflexivity.
Qed.

(** With no callback waiting on the backdrop they get none at all. *)
Lemma passive_run_quiet evs : forall st,
  sheetOpen st = false ->
  callbacks_on_backdrop_only st ->
  callback_of (animatedBackdropMaskOpacity st) = NoCallback ->
  forallb passive evs = true ->
  exists l, log (run st evs) = log st ++ l /\ no_body_command l = true.
Proof.
  induction evs as [|ev evs IH]; intros st Ho Hcb Hb Hevs.
  - exists []. now rewrite app_nil_r.
  - cbn [forallb] in Hevs. apply andb_true_iff in Hevs.
    destruct Hevs as [Hev Hevs].
    destruct (passive_step ev st Ho Hcb Hev)
      as (Ho' & Hcb' & l1 & Hl1 & Hcases).
    destruct Hcases as [[Hq Hb'] | (Hne & _)]; [|contradiction].
    destruct (IH (step st ev) Ho' Hcb' (Hb' Hb) Hevs) as (l2 & Hl2 & Hq2).
    exists (l1 ++ l2). change (run st (ev :: evs)) with (run (step st ev) evs).
    rewrite Hl2, Hl1, app_assoc. split; [reflexivity|].
    now rewrite no_body_command_app, Hq, Hq2.
Qed.

Lemma displaced_quiet c st : no_body_command (displaced c st) = true.
Proof. unfold displaced. now destruct (animation (chan c st)). Qed.

Lemma closeBottomSheet_nf st :
  closeBottomSheet st
  = emits (displaced BackdropMaskOpacity st
           ++ [Started BackdropMaskOpacity (animateBackdropMaskOpacity 0);
               KeyboardListenersRemoved; KeyboardDismissed])
      (setSheetOpen false
         (set_chan BackdropMaskOpacity
            (mkAnimated (value (animatedBackdropMaskOpacity st))
               (Some (animateBackdropMaskOpacity 0,
                      BackdropFaded (animationType (props st)))))
            st)).
Proof.
  unfold closeBottomSheet. open_actions.
  unfold emit, emits, setSheetOpen. proj.
  now rewrite <- !app_assoc.
Qed.

(** C1. Take the sheet in any state it can reach and call [close()].
    - The call itself starts the backdrop fade to zero and nothing else on
      any channel: the content-height and container-height channels are as
      they were, and the fade carries the collapse as its end callback.
    - While no call and no gesture follows, whatever the engine reports and
      whatever renders and layouts happen, no command reaches the
      content-height or the container-height channel before the backdrop
      animation has reported its completion.
    - When it reports completion, the collapse runs: the container height
      is animated to zero, and the content height is animated to zero, or
      set to zero under the fade style.
    - When the fade is displaced instead, by [setValue] or by another
      [start] on the backdrop opacity, its callback is told
      [finished: false], does nothing, and is gone: nothing the engine
      reports afterwards brings any command to the body channels.  A
      captured downward move is such a displacement. *)
Theorem close_fades_backdrop_first
  (p : Props) (screen : Q) (history later : list Event)
  (v : number) (t : Timing) :
  forallb passive later = true ->
  let st := run (mount p screen) history in
  let closed := step st Close in
  let a := animationType (props st) in
  (log closed
   = log st ++ displaced BackdropMaskOpacity st
     ++ [Started BackdropMaskOpacity (animateBackdropMaskOpacity 0);
         KeyboardListenersRemoved; KeyboardDismissed]
   /\ animatedHeight closed = animatedHeight st
   /\ animatedContainerHeight closed = animatedContainerHeight st
   /\ animation (animatedBackdropMaskOpacity closed)
      = Some (animateBackdropMaskOpacity 0, BackdropFaded a))
  /\ (exists l,
        log (run closed later) = log st ++ l /\ fade_first l = true)
  /\ (exists l,
        log (step closed (AnimationEnd BackdropMaskOpacity))
        = log closed ++ Ended BackdropMaskOpacity true :: l
        /\ In (Started ContainerHeight (animateContainerHeight 0)) l
        /\ In (if ANIMATIONS_eqb a FADE then Assigned Height (Fin 0)
               else Started Height (animateHeight a 0 None)) l)
  /\ (forall s, runCallback (BackdropFaded a) false s = s)
  /\ (exists l,
        log (run (setValue BackdropMaskOpacity v closed) later)
        = log closed ++ Ended BackdropMaskOpacity false
                     :: Assigned BackdropMaskOpacity v :: l
        /\ no_body_command l = true)
  /\ (exists l,
        log (run (start BackdropMaskOpacity t NoCallback closed) later)
        = log closed ++ Ended BackdropMaskOpacity false
                     :: Started BackdropMaskOpacity t :: l
        /\ no_body_command l = true)
  /\ (forall view target dy,
        captures view target closed = true -> 0 < dy ->
        let moved := step closed (Move view target dy) in
        (exists l0,
           log moved = log closed ++ Ended BackdropMaskOpacity false :: l0)
        /\ animation (animatedBackdropMaskOpacity moved) = None
        /\ (exists l,
              log (run moved later) = log moved ++ l
              /\ no_body_command l = true)).
Proof.
  intros Hlater st closed a.
  assert (Hcb : callbacks_on_backdrop_only st)
    by apply run_callbacks, mount_callbacks.
  assert (Hcb' : callbacks_on_backdrop_only closed)
    by now apply step_callbacks.
  destruct (render_if_closed
              (needs_render Close st (closeBottomSheet st))
              (closeBottomSheet st) eq_refl)
    as (Ho & Hlog & Hchan).
  cbv zeta in Ho, Hlog, Hchan.
  change (if needs_render Close st (closeBottomSheet st)
          then commit (closeBottomSheet st)
          else closeBottomSheet st) with closed in Ho, Hlog, Hchan.
  assert (Hlog' : log closed
                  = log st ++ displaced BackdropMaskOpacity st
                    ++ [Started BackdropMaskOpacity
                          (animateBackdropMaskOpacity 0);
                        KeyboardListenersRemoved; KeyboardDismissed]).
  { rewrite Hlog, closeBottomSheet_nf. reflexivity. }
  assert (Hanim : animation (animatedBackdropMaskOpacity closed)
                  = Some (animateBackdropMaskOpacity 0, BackdropFaded a)).
  { change (animatedBackdropMaskOpacity closed)
      with (chan BackdropMaskOpacity closed).
    rewrite Hchan, closeBottomSheet_nf. reflexivity. }
  split; [|split; [|split; [|split; [|split; [|split]]]]].
  - split; [exact Hlog'|]. split; [|split; [|exact Hanim]].
    + change (animatedHeight closed) with (chan Height closed).
      rewrite Hchan, closeBottomSheet_nf. reflexivity.
    + change (animatedContainerHeight closed)
        with (chan ContainerHeight closed).
      rewrite Hchan, closeBottomSheet_nf. reflexivity.
  - destruct (passive_run_fade_first later closed Ho Hcb' Hlater)
      as (l & Hl & Hf).
    eexists. split.
    + rewrite Hl, Hlog', <- !app_assoc. reflexivity.
    + apply fade_first_after_quiet; [apply displaced_quiet|exact Hf].
  - assert (Hfin : sheetOpen (finish BackdropMaskOpacity closed) = false).
    { unfold finish. cbn [chan]. rewrite Hanim.
      unfold runCallback, runCallbackWith, backdropFaded.
      destruct (ANIMATIONS_eqb a FADE); unfold seq;
        rewrite ?setValueWith_nf, ?startWith_nf; proj; exact Ho. }
    destruct (render_if_closed
                (needs_render (AnimationEnd BackdropMaskOpacity) closed
                   (finish BackdropMaskOpacity closed))
                (finish BackdropMaskOpacity closed) Hfin)
      as (_ & Hlog2 & _).
    cbv zeta in Hlog2. unfold step at 1. cbv zeta. cbn [handle].
    rewrite Hlog2. unfold finish. cbn [chan]. rewrite Hanim.
    unfold runCallback, runCallbackWith, backdropFaded.
    destruct (ANIMATIONS_eqb a FADE); unfold seq;
      rewrite ?setValueWith_nf, ?startWith_nf; proj;
      (eexists; split; [rewrite <- ?app_assoc; reflexivity|]);
      split; rewrite ?in_app_iff; cbn [In]; tauto.
  - intro s. apply runCallbackWith_stopped.
  - assert (Hd : displaced BackdropMaskOpacity closed
                 = [Ended BackdropMaskOpacity false]).
    { unfold displaced. cbn [chan]. now rewrite Hanim. }
    destruct (passive_run_quiet later
                (setValue BackdropMaskOpacity v closed))
      as (l & Hl & Hq);
      [ rewrite setValue_nf; exact Ho
      | rewrite setValue_nf; exact Hcb'
      | rewrite setValue_nf; reflexivity
      | exact Hlater | ].
    exists l. split; [|exact Hq].
    rewrite Hl, setValue_nf, Hd. proj. now rewrite <- app_assoc.
  - assert (Hd : displaced BackdropMaskOpacity closed
                 = [Ended BackdropMaskOpacity false]).
    { unfold displaced. cbn [chan]. now rewrite Hanim. }
    destruct (passive_run_quiet later
                (start BackdropMaskOpacity t NoCallback closed))
      as (l & Hl & Hq);
      [ rewrite start_nf; exact Ho
      | rewrite start_nf; exact Hcb'
      | rewrite start_nf; reflexivity
      | exact Hlater | ].
    exists l. split; [|exact Hq].
    rewrite Hl, start_nf, Hd. proj. now rewrite <- app_assoc.
  - intros view target dy Hcap Hdy moved.
    assert (Hd : displaced BackdropMaskOpacity closed
                 = [Ended BackdropMaskOpacity false]).
    { unfold displaced. cbn [chan]. now rewrite Hanim. }
    assert (Hm : moved = onPanResponderMove dy closed).
    { subst moved. now rewrite step_Move, Hcap. }
    apply Qltb_lt in Hdy.
    assert (Hfacts : sheetOpen moved = false
                     /\ animation (animatedBackdropMaskOpacity moved) = None
                     /\ exists l0,
                          log moved
                          = log closed
                            ++ Ended BackdropMaskOpacity false :: l0).
    { rewrite Hm, onPanResponderMove_nf, Hdy. cbv zeta.
      destruct (ANIMATIONS_eqb _ _); proj; rewrite Hd;
        (split; [exact Ho|]); (split; [reflexivity|]);
        eexists; rewrite <- ?app_assoc; reflexivity. }
    destruct Hfacts as (Hom & Ham & Hlm).
    split; [exact Hlm|]. split; [exact Ham|].
    apply passive_run_quiet; try assumption.
    + subst moved. now apply step_callbacks.
    + unfold callback_of. now rewrite Ham.
Qed.

(* ================================================================ *)
(** ** Who answers a move on the content surface *)

(** C7, as the code has it. The sheet captures a move on the content
    surface only when the tag of the event's target equals the cached tag.
    A move whose target tag differs from the cached one leaves the whole
    state, the four channels included, as it was; so does, before any tag
    is cached, every move whose target has a tag.  A tag once cached is
    kept by later layouts. *)
Theorem content_move_yields_to_other_targets
  (st : State) (target : option Z) (dy : Q) :
  (captures contentwrapper target st = true ->
     loose_eq (cachedContentWrapperNativeTag st) target = true)
  /\ (loose_eq (cachedContentWrapperNativeTag st) target = false ->
      step st (Move contentwrapper target dy) = st)
  /\ (forall t : Z,
        cachedContentWrapperNativeTag st = None ->
        step st (Move contentwrapper (Some t) dy) = st)
  /\ (forall (t : Z) (later : option Z),
        cachedContentWrapperNativeTag st = Some t -> t <> 0%Z ->
        extractNativeTag later st = st).
Proof.
  assert (Hmiss : forall tg,
             loose_eq (cachedContentWrapperNativeTag st) tg = false ->
             step st (Move contentwrapper tg dy) = st).
  { intros tg H. rewrite step_Move. unfold captures.
    cbn [onMoveShouldSetPanResponder]. rewrite H.
    now rewrite andb_false_r. }
  split; [|split; [|split]].
  - unfold captures. cbn [onMoveShouldSetPanResponder].
    intro H. now apply andb_true_iff in H.
  - apply Hmiss.
  - intros t H. apply Hmiss. now rewrite H.
  - intros t later H Ht. unfold extractNativeTag, when, skip.
    rewrite H. cbn [falsy]. apply Z.eqb_neq in Ht. now rewrite Ht.
Qed.

(* ================================================================ *)
(** ** What no event does *)

Lemma handle_translateY ev st :
  animation (animatedTranslateY st) = None ->
  animatedTranslateY (handle ev st) = animatedTranslateY st.
Proof.
  intro H.
  destruct ev as [| | | | | | |c]; try destruct c; handler_cases;
    try reflexivity; congruence.
Qed.

Lemma step_translateY ev st :
  animation (animatedTranslateY st) = None ->
  animatedTranslateY (step st ev) = animatedTranslateY st.
Proof.
  intro Hi. unfold step. cbv zeta. destruct (needs_render _ _ _).
  - destruct (commit_frame (handle ev st)) as (_ & _ & _ & _ & _ & H).
    now rewrite H, handle_translateY.
  - now apply handle_translateY.
Qed.

(** X1. The translation channel is never used: whatever the props, from
    mounting on and through every event, [_animatedTranslateY] holds 0 with
    no animation in flight. *)
Theorem translateY_is_never_touched
  (p : Props) (screen : Q) (evs : list Event) :
  animatedTranslateY (run (mount p screen) evs) = mkAnimated (Fin 0) None.
Proof.
  assert (H : forall l st,
             animation (animatedTranslateY st) = None ->
             animatedTranslateY (run st l) = animatedTranslateY st).
  { induction l as [|ev l IH]; intros st Hi; [reflexivity|].
    change (run st (ev :: l)) with (run (step st ev) l).
    rewrite IH; rewrite step_translateY; auto. }
  assert (E : animatedTranslateY (mount p screen) = mkAnimated (Fin 0) None).
  { unfold mount.
    destruct (commit_frame (initial p screen)) as (_ & _ & _ & _ & _ & E).
    now rewrite E. }
  rewrite H; rewrite E; reflexivity.
Qed.

Lemma handle_sheetOpen ev st :
  may_flip_open ev = false -> sheetOpen (handle ev st) = sheetOpen st.
Proof.
  intro H. destruct ev as [| | | | | | |c]; try discriminate; try destruct c;
    handler_cases; try reflexivity; congruence.
Qed.

(** X2. The open flag follows calls and releases only: a run without
    [open()], [close()] and gesture releases, whatever animations end in it
    and whatever renders, layouts and moves happen, leaves the flag as it
    was. *)
Theorem open_flag_follows_calls_only (st : State) (evs : list Event) :
  forallb (fun ev => negb (may_flip_open ev)) evs = true ->
  sheetOpen (run st evs) = sheetOpen st.
Proof.
  revert st. induction evs as [|ev evs IH]; intros st H; [reflexivity|].
  cbn [forallb] in H. apply andb_true_iff in H. destruct H as [Hev Hevs].
  apply negb_true_iff in Hev.
  change (run st (ev :: evs)) with (run (step st ev) evs).
  rewrite IH by exact Hevs. unfold step. cbv zeta.
  destruct (needs_render _ _ _); rewrite ?sheetOpen_commit;
    now apply handle_sheetOpen.
Qed.

(* ================================================================ *)
(** ** The cached tag *)

Lemma handle_cached ev st :
  is_content_layout ev = false ->
  cachedContentWrapperNativeTag (handle ev st)
  = cachedContentWrapperNativeTag st.
Proof.
  intro H. destruct ev as [| | | | | | |c]; try discriminate; try destruct c;
    handler_cases; try reflexivity; congruence.
Qed.

Lemma step_cached ev st :
  cachedContentWrapperNativeTag (step st ev)
  = cachedContentWrapperNativeTag (handle ev st).
Proof.
  unfold step. cbv zeta. destruct (needs_render _ _ _); [|reflexivity].
  now destruct (commit_frame (handle ev st)) as (_ & _ & _ & H & _).
Qed.

(** X3. The tag of the content container is cached once.  A layout event
    stores its tag while the cache holds none (or 0); from then on no
    event changes the cache, later layouts with other tags included; and
    without a layout event the cache never changes at all. *)
Theorem cached_tag_is_kept (st : State) (evs : list Event) :
  (forall t : Z,
     cachedContentWrapperNativeTag st = Some t -> t <> 0%Z ->
     cachedContentWrapperNativeTag (run st evs) = Some t)
  /\ (forall tag : option Z,
        falsy (cachedContentWrapperNativeTag st) = true ->
        cachedContentWrapperNativeTag (step st (ContentLayout tag)) = tag)
  /\ (forallb (fun ev => negb (is_content_layout ev)) evs = true ->
      cachedContentWrapperNativeTag (run st evs)
      = cachedContentWrapperNativeTag st).
Proof.
  split; [|split].
  - intros t Ht Hnz. revert st Ht.
    induction evs as [|ev evs IH]; intros st Ht; [exact Ht|].
    change (run st (ev :: evs)) with (run (step st ev) evs).
    apply IH. rewrite step_cached.
    destruct (is_content_layout ev) eqn:E.
    + destruct ev; try discriminate. cbn [handle].
      unfold extractNativeTag, when, skip. rewrite Ht. cbn [falsy].
      apply Z.eqb_neq in Hnz. now rewrite Hnz.
    + now rewrite handle_cached.
  - intros tag H. rewrite step_cached. cbn [handle].
    unfold extractNativeTag, when. now rewrite H.
  - revert st. induction evs as [|ev evs IH]; intros st H; [reflexivity|].
    cbn [forallb] in H. apply andb_true_iff in H. destruct H as [Hev Hevs].
    apply negb_true_iff in Hev.
    change (run st (ev :: evs)) with (run (step st ev) evs).
    now rewrite IH, step_cached, handle_cached.
Qed.

(** X4. Only the backdrop animation is ever given an end callback: in
    every state the sheet can reach, the animations in flight on the
    container height, the content height and the translation carry none. *)
Theorem callbacks_are_on_the_backdrop_only
  (p : Props) (screen : Q) (evs : list Event) :
  callbacks_on_backdrop_only (run (mount p screen) evs).
Proof. apply run_callbacks, mount_callbacks. Qed.

(* ================================================================ *)
(** ** What the log can hold *)

Lemma displaced_made c st :
  c <> TranslateY -> forallb animator_made (displaced c st) = true.
Proof.
  intro H. unfold displaced.
  destruct (animation (chan c st)); [|reflexivity].
  destruct c; try reflexivity. now destruct H.
Qed.

Ltac close_made :=
  rewrite ?forallb_app, ?displaced_made by discriminate;
  repeat match goal with
    | H : context [animationType ?p] |- _ =>
        let a := fresh "a" in
        let E := fresh "E" in
        remember (animationType p) as a eqn:E in *; clear E
    | |- context [animationType ?p] =>
        let a := fresh "a" in
        let E := fresh "E" in
        remember (animationType p) as a eqn:E in *; clear E
    end;
  repeat match goal with
    | H : forallb animator_made (log _) = true |- _ => rewrite H
    | a : ANIMATIONS |- _ => destruct a
    end;
  try discriminate; try reflexivity; try assumption.

Lemma handle_made ev st :
  forallb animator_made (log st) = true ->
  animation (animatedTranslateY st) = None ->
  forallb animator_made (log (handle ev st)) = true.
Proof.
  intros Hl Ht.
  destruct ev as [| | | | | | |c]; try destruct c;
    handler_cases; try congruence; close_made.
Qed.

Lemma renderPass_made st :
  forallb animator_made (log st) = true ->
  forallb animator_made (log (renderPass st)) = true.
Proof.
  intro Hl. render_cases; try congruence; close_made.
Qed.

Lemma step_made ev st :
  forallb animator_made (log st) = true ->
  animation (animatedTranslateY st) = None ->
  forallb animator_made (log (step st ev)) = true.
Proof.
  intros Hl Ht. unfold step. cbv zeta.
  destruct (needs_render _ _ _); [|now apply handle_made].
  unfold commit, seq. now apply renderPass_made, renderPass_made, handle_made.
Qed.

(** X5. Every animation the component ever starts is one its animators
    build: 50 ms on the container height, 200 ms towards 0 or 1 on the
    backdrop opacity, and on the content height 500 ms with the slide easing
    or 600 ms with the spring easing, never the parameters [animateHeight]
    has for the fade style.  The log of any run from mounting holds nothing
    else, and nothing about the translation. *)
Theorem started_animations_are_the_animators
  (p : Props) (screen : Q) (evs : list Event) :
  forallb animator_made (log (run (mount p screen) evs)) = true.
Proof.
  assert (H : forall l st,
             forallb animator_made (log st) = true ->
             animation (animatedTranslateY st) = None ->
             forallb animator_made (log (run st l)) = true).
  { induction l as [|ev l IH]; intros st Hl Ht; [exact Hl|].
    change (run st (ev :: l)) with (run (step st ev) l).
    apply IH; [now apply step_made|].
    now rewrite step_translateY. }
  apply H.
  - unfold mount, commit, seq. now apply renderPass_made, renderPass_made.
  - unfold mount.
    destruct (commit_frame (initial p screen)) as (_ & _ & _ & _ & _ & E).
    now rewrite E.
Qed.

(* ================================================================ *)
(** ** Sequences run to their end *)

Lemma finish_hooks c st :
  containerHeight (finish c st) = containerHeight st
  /\ sheetOpen (finish c st) = sheetOpen st
  /\ props (finish c st) = props st.
Proof.
  change (finish c st) with (handle (AnimationEnd c) st).
  destruct c; handler_cases; repeat split; reflexivity.
Qed.

Lemma step_AnimationEnd st c : step st (AnimationEnd c) = finish c st.
Proof.
  destruct (finish_hooks c st) as (H1 & H2 & _).
  apply step_without_render; try discriminate; assumption.
Qed.

Lemma finish_idle c st : animation (chan c st) = None -> finish c st = st.
Proof. intro H. unfold finish. now rewrite H. Qed.

Lemma finish_plain c st t :
  animation (chan c st) = Some (t, NoCallback) ->
  forall c',
    chan c' (finish c st)
    = if Channel_eqb c c' then mkAnimated (Fin (toValue t)) None
      else chan c' st.
Proof.
  intros H c'. unfold finish. rewrite H.
  destruct c, c'; reflexivity.
Qed.

Lemma finish_faded st t a :
  animation (animatedBackdropMaskOpacity st) = Some (t, BackdropFaded a) ->
  animatedBackdropMaskOpacity (finish BackdropMaskOpacity st)
  = mkAnimated (Fin (toValue t)) None
  /\ animatedContainerHeight (finish BackdropMaskOpacity st)
     = mkAnimated (value (animatedContainerHeight st))
         (Some (animateContainerHeight 0, NoCallback))
  /\ animatedHeight (finish BackdropMaskOpacity st)
     = (if ANIMATIONS_eqb a FADE then mkAnimated (Fin 0) None
        else mkAnimated (value (animatedHeight st))
               (Some (animateHeight a 0 None, NoCallback))).
Proof.
  intro H. unfold finish. cbn [chan]. rewrite H.
  unfold runCallback, runCallbackWith, backdropFaded.
  destruct (ANIMATIONS_eqb a FADE); unfold seq;
    rewrite ?setValueWith_nf, ?startWith_nf; proj; repeat split.
Qed.

(** What is left of a closing sheet once the fade has ended: each body
    channel holds 0 or is on its way there with no callback. *)
Lemma finish_body_to_rest (c : Channel) (s : State) :
  sheetOpen s = false ->
  animatedBackdropMaskOpacity s = mkAnimated (Fin 0) None ->
  (animatedHeight s = mkAnimated (Fin 0) None
   \/ exists v t, toValue t = 0 /\
        animatedHeight s = mkAnimated v (Some (t, NoCallback))) ->
  (animatedContainerHeight s = mkAnimated (Fin 0) None
   \/ exists v t, toValue t = 0 /\
        animatedContainerHeight s = mkAnimated v (Some (t, NoCallback))) ->
  (c = Height \/ c = ContainerHeight) ->
  sheetOpen (finish c s) = false
  /\ animatedBackdropMaskOpacity (finish c s) = mkAnimated (Fin 0) None
  /\ (if Channel_eqb c Height
      then animatedHeight (finish c s) = mkAnimated (Fin 0) None
      else animatedHeight (finish c s) = animatedHeight s)
  /\ (if Channel_eqb c ContainerHeight
      then animatedContainerHeight (finish c s) = mkAnimated (Fin 0) None
      else animatedContainerHeight (finish c s) = animatedContainerHeight s).
Proof.
  intros Hso Hsb Hsh Hsc Hcc.
  destruct (finish_hooks c s) as (_ & O & _). rewrite O.
  split; [exact Hso|].
  destruct Hcc as [-> | ->]; cbn [Channel_eqb].
  - destruct Hsh as [E | (v & t & Et & E)].
    + rewrite finish_idle by (cbn [chan]; now rewrite E).
      repeat split; assumption.
    + assert (A : animation (chan Height s) = Some (t, NoCallback))
        by (cbn [chan]; now rewrite E).
      pose proof (finish_plain Height s t A) as P.
      pose proof (P BackdropMaskOpacity) as P1.
      pose proof (P Height) as P2.
      pose proof (P ContainerHeight) as P3.
      cbn [chan Channel_eqb] in P1, P2, P3.
      rewrite P1, P2, P3, Et. repeat split; assumption.
  - destruct Hsc as [E | (v & t & Et & E)].
    + rewrite finish_idle by (cbn [chan]; now rewrite E).
      repeat split; assumption.
    + assert (A : animation (chan ContainerHeight s) = Some (t, NoCallback))
        by (cbn [chan]; now rewrite E).
      pose proof (finish_plain ContainerHeight s t A) as P.
      pose proof (P BackdropMaskOpacity) as P1.
      pose proof (P Height) as P2.
      pose proof (P ContainerHeight) as P3.
      cbn [chan Channel_eqb] in P1, P2, P3.
      rewrite P1, P2, P3, Et. repeat split; assumption.
Qed.

(** X6. A close that is left to run collapses the sheet.  From any state
    at all, whatever is in flight, [close()] followed by the end of the
    backdrop fade and then the ends of the content-height and
    container-height animations, in either order, leaves the flag off and
    the three channels at 0 with nothing in flight, under every style. *)
Theorem close_runs_to_rest (st : State) :
  collapsed
    (run st [Close; AnimationEnd BackdropMaskOpacity;
             AnimationEnd Height; AnimationEnd ContainerHeight])
  /\ collapsed
       (run st [Close; AnimationEnd BackdropMaskOpacity;
                AnimationEnd ContainerHeight; AnimationEnd Height]).
Proof.
  assert (Hrun : forall second third,
             run st [Close; AnimationEnd BackdropMaskOpacity;
                     AnimationEnd second; AnimationEnd third]
             = finish third
                 (finish second
                    (finish BackdropMaskOpacity (step st Close)))).
  { intros. cbn [run fold_left]. now rewrite !step_AnimationEnd. }
  rewrite !Hrun.
  destruct (render_if_closed (needs_render Close st (closeBottomSheet st))
              (closeBottomSheet st) eq_refl) as (Ho & _ & Hchan).
  cbv zeta in Ho, Hchan.
  change (if needs_render Close st (closeBottomSheet st)
          then commit (closeBottomSheet st) else closeBottomSheet st)
    with (step st Close) in Ho, Hchan.
  pose proof (Hchan BackdropMaskOpacity) as Hb.
  rewrite closeBottomSheet_nf in Hb. proj_all.
  set (closed := step st Close) in *. clearbody closed. clear Hchan.
  assert (Hb' : animation (animatedBackdropMaskOpacity closed)
                = Some (animateBackdropMaskOpacity 0,
                        BackdropFaded (animationType (props st))))
    by now rewrite Hb.
  destruct (finish_faded closed _ _ Hb') as (F1 & F2 & F3).
  destruct (finish_hooks BackdropMaskOpacity closed) as (_ & O1 & _).
  set (s1 := finish BackdropMaskOpacity closed) in *. clearbody s1.
  cbn [toValue animateBackdropMaskOpacity] in F1.
  assert (Hh1 : animatedHeight s1 = mkAnimated (Fin 0) None
                \/ exists v t, toValue t = 0 /\
                     animatedHeight s1 = mkAnimated v (Some (t, NoCallback))).
  { rewrite F3. destruct (ANIMATIONS_eqb _ _); [now left|].
    right. do 2 eexists. split; [|reflexivity]. reflexivity. }
  assert (Hc1 : animatedContainerHeight s1 = mkAnimated (Fin 0) None
                \/ exists v t, toValue t = 0 /\
                     animatedContainerHeight s1
                     = mkAnimated v (Some (t, NoCallback))).
  { rewrite F2. right. do 2 eexists. split; [|reflexivity]. reflexivity. }
  assert (Os1 : sheetOpen s1 = false) by congruence.
  unfold collapsed. split.
  - destruct (finish_body_to_rest Height s1 Os1 F1 Hh1 Hc1
                (or_introl eq_refl)) as (A1 & A2 & A3 & A4).
    cbn [Channel_eqb] in A3, A4.
    destruct (finish_body_to_rest ContainerHeight (finish Height s1) A1 A2
                (or_introl A3) ltac:(now rewrite A4) (or_intror eq_refl))
      as (B1 & B2 & B3 & B4).
    cbn [Channel_eqb] in B3, B4.
    repeat split; congruence.
  - destruct (finish_body_to_rest ContainerHeight s1 Os1 F1 Hh1 Hc1
                (or_intror eq_refl)) as (A1 & A2 & A3 & A4).
    cbn [Channel_eqb] in A3, A4.
    destruct (finish_body_to_rest Height (finish ContainerHeight s1) A1 A2
                ltac:(now rewrite A3) (or_introl A4) (or_introl eq_refl))
      as (B1 & B2 & B3 & B4).
    cbn [Channel_eqb] in B3, B4.
    repeat split; congruence.
Qed.

(* ================================================================ *)
(** ** Gestures, from touch to release *)

Lemma onPanResponderMove_hooks dy st :
  props (onPanResponderMove dy st) = props st
  /\ containerHeight (onPanResponderMove dy st) = containerHeight st
  /\ sheetOpen (onPanResponderMove dy st) = sheetOpen st
  /\ cachedContentWrapperNativeTag (onPanResponderMove dy st)
     = cachedContentWrapperNativeTag st
  /\ convertedHeight (onPanResponderMove dy st) = convertedHeight st
  /\ animatedContainerHeight (onPanResponderMove dy st)
     = animatedContainerHeight st.
Proof.
  rewrite onPanResponderMove_nf.
  destruct (Qltb 0 dy); cbv zeta; [|now repeat split].
  destruct (ANIMATIONS_eqb _ _); now repeat split.
Qed.

Lemma step_Release_snap_back st view target dy :
  captures view target st = true ->
  geb dy (div64 (convertedHeight st) 3) && closeOnDragDown (props st) = false ->
  step st (Release view target dy) = onPanResponderRelease dy st.
Proof.
  intros Hcap Hno.
  assert (E : handle (Release view target dy) st = onPanResponderRelease dy st).
  { cbn [handle]. unfold when. now rewrite Hcap. }
  rewrite step_without_render; try discriminate; rewrite E; [reflexivity| |];
    rewrite (onPanResponderRelease_snap_back dy st Hno); cbv zeta;
    destruct (ANIMATIONS_eqb _ _); reflexivity.
Qed.

(** C4. A captured release compares [dy] with [convertedHeight / 3], the
    quotient as the engine computes it.
    - With [dy >= convertedHeight / 3] and [closeOnDragDown], the release
      does what [close()] does: the open flag is off, the backdrop fade to 0
      (200 ms) is in flight with the collapse as its end callback, the
      keyboard is let go, and the body channels are as they were; when the
      fade ends the container height is animated to 0 (50 ms) and the
      content height is set to 0 under fade and animated to 0 otherwise.
    - Otherwise the sheet does not close: the open flag is untouched, the
      backdrop opacity is assigned 1 at once, the container height is left
      alone, and the content height is left alone under fade and animated to
      [convertedHeight] otherwise (500 ms with the slide easing, 600 ms with
      the spring easing for the spring style).
    - A release exactly at the threshold closes; one unit below it does
      not. *)
Theorem release_closes_from_a_third
  (st : State) (view : PanView) (target : option Z) (dy : Q) :
  captures view target st = true ->
  let h := convertedHeight st in
  let a := animationType (props st) in
  let threshold := div64 h 3 in
  let back (toValue : Q) :=
    mkTiming toValue (if ANIMATIONS_eqb a SPRING then 600 else 500)
      (if ANIMATIONS_eqb a SLIDE then slideEasingFn else springEasingFn) in
  let st' := step st (Release view target dy) in
  let faded := step st' (AnimationEnd BackdropMaskOpacity) in
  (geb dy threshold = true -> closeOnDragDown (props st) = true ->
   st' = step st Close
   /\ sheetOpen st' = false
   /\ animatedBackdropMaskOpacity st'
      = mkAnimated (value (animatedBackdropMaskOpacity st))
          (Some (mkTiming 0 200 defaultEasing, BackdropFaded a))
   /\ animatedHeight st' = animatedHeight st
   /\ animatedContainerHeight st' = animatedContainerHeight st
   /\ log st'
      = log st ++ displaced BackdropMaskOpacity st
        ++ [Started BackdropMaskOpacity (mkTiming 0 200 defaultEasing);
            KeyboardListenersRemoved; KeyboardDismissed]
   /\ animatedBackdropMaskOpacity faded = mkAnimated (Fin 0) None
   /\ animatedContainerHeight faded
      = mkAnimated (value (animatedContainerHeight st))
          (Some (mkTiming 0 50 defaultEasing, NoCallback))
   /\ animatedHeight faded
      = (if ANIMATIONS_eqb a FADE then mkAnimated (Fin 0) None
         else mkAnimated (value (animatedHeight st))
                (Some (back 0, NoCallback))))
  /\ (geb dy threshold = false \/ closeOnDragDown (props st) = false ->
      sheetOpen st' = sheetOpen st
      /\ animatedBackdropMaskOpacity st' = mkAnimated (Fin 1) None
      /\ animatedContainerHeight st' = animatedContainerHeight st
      /\ animatedHeight st'
         = (if ANIMATIONS_eqb a FADE then animatedHeight st
            else mkAnimated (value (animatedHeight st))
                   (Some (back h, NoCallback))))
  /\ (forall t : Q,
        threshold = Fin t -> closeOnDragDown (props st) = true ->
        sheetOpen (step st (Release view target t)) = false
        /\ sheetOpen (step st (Release view target (t - 1))) = sheetOpen st).
Proof.
  intros Hcap h a threshold back st' faded.
  assert (Hclose : forall d,
             geb d threshold = true -> closeOnDragDown (props st) = true ->
             step st (Release view target d) = step st Close).
  { intros d Hd Hc. unfold step. cbv zeta. cbn [handle needs_render].
    unfold when. rewrite Hcap. unfold onPanResponderRelease.
    fold h threshold. now rewrite Hd, Hc. }
  assert (Hback : forall d,
             geb d threshold = false \/ closeOnDragDown (props st) = false ->
             step st (Release view target d)
             = let st1 :=
                 emits (displaced BackdropMaskOpacity st
                        ++ [Assigned BackdropMaskOpacity (Fin 1)])
                   (set_chan BackdropMaskOpacity (mkAnimated (Fin 1) None)
                      st) in
               if ANIMATIONS_eqb a FADE then st1
               else
                 emits (displaced Height st ++ [Started Height (back h)])
                   (set_chan Height
                      (mkAnimated (value (animatedHeight st))
                         (Some (back h, NoCallback)))
                      st1)).
  { intros d Hd.
    assert (Hno : geb d (div64 (convertedHeight st) 3)
                  && closeOnDragDown (props st) = false).
    { fold h threshold. destruct Hd as [-> | ->];
        [reflexivity | apply andb_false_r]. }
    rewrite (step_Release_snap_back st view target d Hcap Hno).
    rewrite (onPanResponderRelease_snap_back d st Hno).
    reflexivity. }
  split; [|split].
  - intros Hd Hc.
    destruct (render_if_closed (needs_render Close st (closeBottomSheet st))
                (closeBottomSheet st) eq_refl) as (Ho & Hlog & Hchan).
    cbv zeta in Ho, Hlog, Hchan.
    change (if needs_render Close st (closeBottomSheet st)
            then commit (closeBottomSheet st) else closeBottomSheet st)
      with (step st Close) in Ho, Hlog, Hchan.
    pose proof (Hchan BackdropMaskOpacity) as Hb.
    pose proof (Hchan Height) as Hh.
    pose proof (Hchan ContainerHeight) as Hk.
    rewrite closeBottomSheet_nf in Hb, Hh, Hk, Hlog. proj_all.
    subst faded st'. rewrite (Hclose dy Hd Hc).
    set (closed := step st Close) in *. clearbody closed.
    assert (Hb' : animation (animatedBackdropMaskOpacity closed)
                  = Some (animateBackdropMaskOpacity 0,
                          BackdropFaded (animationType (props st))))
      by now rewrite Hb.
    destruct (finish_faded closed _ _ Hb') as (F1 & F2 & F3).
    rewrite step_AnimationEnd, F1, F2, F3, Hh, Hk.
    split; [reflexivity|]. split; [exact Ho|]. split; [exact Hb|].
    split; [reflexivity|]. split; [reflexivity|]. split; [exact Hlog|].
    split; [reflexivity|]. split; [reflexivity|].
    fold a. destruct a; reflexivity.
  - intro Hd. subst st'. rewrite (Hback dy Hd). cbv zeta.
    destruct (ANIMATIONS_eqb a FADE); repeat split; reflexivity.
  - intros t Ht Hc. split.
    + rewrite (Hclose t); [|rewrite Ht; apply Qle_bool_iff, Qle_refl | exact Hc].
      now destruct (render_if_closed
                      (needs_render Close st (closeBottomSheet st))
                      (closeBottomSheet st) eq_refl) as (Ho & _).
    + rewrite (Hback (t - 1)).
      * cbv zeta. destruct (ANIMATIONS_eqb a FADE); reflexivity.
      * left. rewrite Ht. cbn [geb].
        destruct (Qle_bool t (t - 1)) eqn:E; [|reflexivity].
        apply Qle_bool_iff in E. lra.
Qed.

(** X7. A drag that is let go short of the threshold is undone.  After a
    captured move of any length and a release below
    [convertedHeight / 3], the quotient as a binary64 (or with
    [closeOnDragDown] off), the backdrop
    opacity holds 1 again; under the fade style the content height was
    never touched, and under the others it is animating back and, once that
    animation ends, holds [convertedHeight].  The open flag and the
    container height are as before the drag. *)
Theorem released_drag_is_undone
  (st : State) (view : PanView) (target : option Z) (dy dy' : Q) :
  captures view target st = true ->
  geb dy' (div64 (convertedHeight st) 3) && closeOnDragDown (props st) = false ->
  let released := run st [Move view target dy; Release view target dy'] in
  let rested := step released (AnimationEnd Height) in
  sheetOpen released = sheetOpen st
  /\ animatedContainerHeight released = animatedContainerHeight st
  /\ animatedBackdropMaskOpacity released = mkAnimated (Fin 1) None
  /\ (animationType (props st) = FADE ->
      animatedHeight released = animatedHeight st)
  /\ (animationType (props st) <> FADE ->
      animatedBackdropMaskOpacity rested = mkAnimated (Fin 1) None
      /\ animatedHeight rested = mkAnimated (Fin (convertedHeight st)) None).
Proof.
  intros Hcap Hno released rested.
  destruct (onPanResponderMove_hooks dy st) as (Mp & Mc & Mo & Mt & Mh & Ma).
  assert (Hmoved : step st (Move view target dy) = onPanResponderMove dy st)
    by now rewrite step_Move, Hcap.
  set (moved := onPanResponderMove dy st) in *.
  assert (Hcap' : captures view target moved = true).
  { unfold captures, is_rendered, getPanHandlersFor,
      onMoveShouldSetPanResponder in *. now rewrite Mp, Mt. }
  assert (Hno' : geb dy' (div64 (convertedHeight moved) 3)
                 && closeOnDragDown (props moved) = false)
    by now rewrite Mh, Mp.
  assert (Hrel : released = onPanResponderRelease dy' moved).
  { subst released. cbn [run fold_left]. rewrite Hmoved.
    now apply step_Release_snap_back. }
  pose proof (onPanResponderRelease_snap_back dy' moved Hno') as Hnf.
  cbv zeta in Hnf. rewrite Mp, Mh in Hnf.
  assert (Hheight : animatedHeight moved
                    = if ANIMATIONS_eqb (animationType (props st)) FADE
                      then animatedHeight st
                      else animatedHeight moved).
  { subst moved. rewrite onPanResponderMove_nf.
    destruct (Qltb 0 dy); cbv zeta;
      destruct (ANIMATIONS_eqb _ _); reflexivity. }
  split; [|split; [|split; [|split]]].
  - rewrite Hrel, Hnf. destruct (ANIMATIONS_eqb _ _); exact Mo.
  - rewrite Hrel, Hnf. destruct (ANIMATIONS_eqb _ _); exact Ma.
  - rewrite Hrel, Hnf. destruct (ANIMATIONS_eqb _ _); reflexivity.
  - intro Hf. apply ANIMATIONS_eqb_eq in Hf. rewrite Hf in Hnf, Hheight.
    rewrite Hrel, Hnf. exact Hheight.
  - intro Hf. apply ANIMATIONS_eqb_neq in Hf. rewrite Hf in Hnf.
    subst rested. rewrite step_AnimationEnd.
    assert (A : animation (chan Height released)
                = Some (animateHeight (animationType (props st))
                          (convertedHeight st) None, NoCallback)).
    { rewrite Hrel, Hnf. reflexivity. }
    pose proof (finish_plain Height released _ A) as P.
    pose proof (P BackdropMaskOpacity) as P1.
    pose proof (P Height) as P2.
    cbn [chan Channel_eqb] in P1, P2. rewrite P1, P2.
    split; [|reflexivity].
    rewrite Hrel, Hnf. reflexivity.
Qed.

(** X8. Panning that is switched off stays off.  With [disableBodyPanning]
    set, and the handle bar either hidden or with
    [disableHandleBarPanning] set, no sequence of moves and releases, on
    either region, with any target and any delta, changes the state. *)
Theorem disabled_panning_is_inert (st : State) (evs : list Event) :
  disableBodyPanning (props st) = true ->
  hideHandleBar (props st) || disableHandleBarPanning (props st) = true ->
  forallb is_gesture evs = true ->
  run st evs = st.
Proof.
  intros Hb Hh. induction evs as [|ev evs IH]; intro Hevs; [reflexivity|].
  cbn [forallb] in Hevs. apply andb_true_iff in Hevs.
  destruct Hevs as [Hev Hevs].
  assert (Hcap : forall view target, captures view target st = false).
  { intros view target. unfold captures, is_rendered, getPanHandlersFor.
    destruct view.
    - apply orb_true_iff in Hh. destruct Hh as [-> | ->]; cbn;
        [reflexivity | now rewrite andb_false_r].
    - now rewrite Hb. }
  assert (Hstep : step st ev = st).
  { destruct ev; try discriminate;
      (rewrite step_without_render; try discriminate;
       cbn [handle]; unfold when, skip; rewrite Hcap; reflexivity). }
  change (run st (ev :: evs)) with (run (step st ev) evs).
  rewrite Hstep. now apply IH.
Qed.

(* ================================================================ *)
(** ** Calling twice *)

Lemma openBottomSheet_fields st :
  props (openBottomSheet st) = props st
  /\ SCREEN_HEIGHT (openBottomSheet st) = SCREEN_HEIGHT st
  /\ containerHeight (openBottomSheet st) = containerHeight st
  /\ sheetOpen (openBottomSheet st) = true
  /\ cachedContentWrapperNativeTag (openBottomSheet st)
     = cachedContentWrapperNativeTag st
  /\ convertedHeight (openBottomSheet st) = convertedHeight st
  /\ rendered (openBottomSheet st) = rendered st
  /\ animatedBackdropMaskOpacity (openBottomSheet st)
     = mkAnimated (value (animatedBackdropMaskOpacity st))
         (Some (animateBackdropMaskOpacity 1, NoCallback))
  /\ animatedHeight (openBottomSheet st)
     = (if ANIMATIONS_eqb (animationType (props st)) FADE
        then mkAnimated (Fin (convertedHeight st)) None
        else mkAnimated (value (animatedHeight st))
               (Some (animateHeight (animationType (props st))
                        (convertedHeight st) None, NoCallback)))
  /\ animatedTranslateY (openBottomSheet st) = animatedTranslateY st.
Proof.
  unfold openBottomSheet. cbv zeta. unfold seq.
  destruct (ANIMATIONS_eqb (animationType (props st)) FADE);
    rewrite ?setValue_nf, ?start_nf; proj; repeat split.
Qed.


(* ================================================================ *)
(** ** The opacity of the content *)

Import Interpolation.

Lemma interpolateQ_cases (q : Q) :
  (q <= 0 /\ interpolateQ q == 0)
  \/ (0 <= q <= 1 # 2 /\ interpolateQ q == (3 # 5) * q)
  \/ (1 # 2 <= q <= 1 /\ interpolateQ q == (7 # 5) * q - (2 # 5))
  \/ (1 <= q /\ interpolateQ q == 1).
Proof.
  unfold interpolateQ, segment.
  destruct (Qle_bool q (1 # 2)) eqn:E1.
  - apply Qle_bool_iff in E1.
    destruct (Qltb q 0) eqn:E2.
    + apply Qltb_lt in E2. left. split; [lra|].
      replace (Qltb (1 # 2) 0) with false by reflexivity. field.
    + apply Qltb_ge in E2.
      destruct (Qltb (1 # 2) q) eqn:E3.
      * apply Qltb_lt in E3. lra.
      * right. left. split; [lra|]. field.
  - assert (H : 1 # 2 < q).
    { apply Qnot_le_lt. intro H. apply Qle_bool_iff in H. congruence. }
    replace (Qltb q (1 # 2)) with false
      by (symmetry; apply Qltb_ge; lra).
    destruct (Qltb 1 q) eqn:E3.
    + apply Qltb_lt in E3. right. right. right. split; [lra|]. field.
    + apply Qltb_ge in E3. right. right. left. split; [lra|]. field.
Qed.

Lemma interpolation_shape_bounds (x : Q) : 0 <= interpolateQ x <= 1.
Proof.
  destruct (interpolateQ_cases x) as [[? E]|[[? E]|[[? E]|[? E]]]];
    rewrite E; lra.
Qed.

(** X10. The opacity curve of the fade style, [0, 0.5, 1] onto
    [0, 0.3, 1] with clamping: its value always lies in [[0, 1]]; it is 0
    up to 0 and 1 from 1 on, 0.3 at 0.5; it never decreases; and between 0
    and 1 it never exceeds its input, so the content is at most as opaque as
    the backdrop. *)
Theorem interpolation_shape (x y : Q) :
  0 <= interpolateQ x <= 1
  /\ (x <= 0 -> interpolateQ x == 0)
  /\ (1 <= x -> interpolateQ x == 1)
  /\ interpolateQ (1 # 2) == 3 # 10
  /\ (x <= y -> interpolateQ x <= interpolateQ y)
  /\ (0 <= x <= 1 -> interpolateQ x <= x).
Proof.
  pose proof (interpolateQ_cases x) as Hx.
  pose proof (interpolateQ_cases y) as Hy.
  split; [|split; [|split; [|split; [|split]]]].
  - apply interpolation_shape_bounds.
  - intro H. destruct Hx as [[? E]|[[? E]|[[? E]|[? E]]]]; rewrite E; lra.
  - intro H. destruct Hx as [[? E]|[[? E]|[[? E]|[? E]]]]; rewrite E; lra.
  - reflexivity.
  - intro H.
    destruct Hx as [[? E]|[[? E]|[[? E]|[? E]]]]; rewrite E;
      destruct Hy as [[? F]|[[? F]|[[? F]|[? F]]]]; rewrite F; lra.
  - intro H. destruct Hx as [[? E]|[[? E]|[[? E]|[? E]]]]; rewrite E; lra.
Qed.

Lemma drag_opacity_not_NaN (dy h : Q) :
  Qltb 0 dy = true -> is_NaN (JS.sub (Fin 1) (JS.div dy h)) = false.
Proof.
  intro H. apply Qltb_lt in H. apply Qgt_alt in H.
  unfold JS.div. rewrite H. now destruct (Qeq_bool h 0).
Qed.

Lemma handle_backdrop_not_NaN ev st :
  is_NaN (value (animatedBackdropMaskOpacity st)) = false ->
  is_NaN (value (animatedBackdropMaskOpacity (handle ev st))) = false.
Proof.
  intro H.
  destruct ev as [| | | | | | |c]; try destruct c; handler_cases;
    try assumption; try reflexivity.
  all: now apply drag_opacity_not_NaN.
Qed.

Lemma run_backdrop_not_NaN evs : forall st,
  is_NaN (value (animatedBackdropMaskOpacity st)) = false ->
  is_NaN (value (animatedBackdropMaskOpacity (run st evs))) = false.
Proof.
  induction evs as [|ev evs IH]; intros st H; [exact H|].
  change (run st (ev :: evs)) with (run (step st ev) evs).
  apply IH. unfold step. cbv zeta.
  destruct (needs_render _ _ _); [|now apply handle_backdrop_not_NaN].
  destruct (commit_frame (handle ev st)) as (_ & _ & _ & _ & E & _).
  rewrite E. now apply handle_backdrop_not_NaN.
Qed.

(** X11. Under the fade style the opacity of the content container lies
    in [[0, 1]] in every state the sheet can reach, however far a drag has
    taken the backdrop opacity below zero, a drag on a sheet of height zero
    included (the backdrop opacity is never [NaN]).  Under the other styles
    it is the opacity of the [style] prop, untouched. *)
Theorem fade_content_opacity_is_clamped
  (p : Props) (screen : Q) (evs : list Event) :
  let st := run (mount p screen) evs in
  is_NaN (value (animatedBackdropMaskOpacity st)) = false
  /\ (forall styleOpacity,
        exists v,
          interpolatedOpacity FADE styleOpacity st = Some v
          /\ in_unit v = true)
  /\ (forall a styleOpacity,
        a <> FADE -> interpolatedOpacity a styleOpacity st = styleOpacity).
Proof.
  intro st.
  assert (Hn : is_NaN (value (animatedBackdropMaskOpacity st)) = false).
  { subst st. apply run_backdrop_not_NaN. unfold mount.
    destruct (commit_frame (initial p screen)) as (_ & _ & _ & _ & E & _).
    now rewrite E. }
  split; [exact Hn|]. split.
  - intro so. unfold interpolatedOpacity. cbn [ANIMATIONS_eqb].
    eexists. split; [reflexivity|].
    destruct (value (animatedBackdropMaskOpacity st)) as [q| | |];
      try reflexivity; try discriminate.
    cbn [interpolate in_unit].
    destruct (interpolation_shape_bounds q) as [H1 H2].
    apply Qle_bool_iff in H1, H2. now rewrite H1, H2.
  - intros a so Ha. unfold interpolatedOpacity.
    apply ANIMATIONS_eqb_neq in Ha. now rewrite Ha.
Qed.

(* ================================================================ *)
(** ** Renders settle *)

Lemma useLayoutEffect_containerHeight x :
  containerHeight (useLayoutEffect x)
  = if hideBackdrop (props x) then containerHeight x
    else match passedContainerHeight (props x) with
         | CHNumber n => normalizeHeight n
         | CHUndefined =>
             if negb (Qeq_bool (containerHeight x) (SCREEN_HEIGHT x))
             then SCREEN_HEIGHT x else containerHeight x
         | CHString _ => containerHeight x
         end.
Proof.
  unfold useLayoutEffect.
  destruct (hideBackdrop _); [reflexivity|].
  destruct (passedContainerHeight _); [|
    |reflexivity].
  - destruct (negb _); [|reflexivity].
    open_actions. destruct (sheetOpen x); open_actions; reflexivity.
  - open_actions. destruct (sheetOpen x); open_actions; reflexivity.
Qed.

Lemma useMemo_frame x :
  props (useMemo_convertedHeight x) = props x
  /\ SCREEN_HEIGHT (useMemo_convertedHeight x) = SCREEN_HEIGHT x
  /\ containerHeight (useMemo_convertedHeight x) = containerHeight x
  /\ sheetOpen (useMemo_convertedHeight x) = sheetOpen x
  /\ rendered (useMemo_convertedHeight x) = rendered x.
Proof.
  unfold useMemo_convertedHeight. cbv zeta. open_actions.
  destruct (sheetOpen x) eqn:E; [|now repeat split].
  destruct (ANIMATIONS_eqb _ _); open_actions; now repeat split.
Qed.

Lemma deps_of_ext a b :
  props a = props b -> SCREEN_HEIGHT a = SCREEN_HEIGHT b ->
  containerHeight a = containerHeight b -> sheetOpen a = sheetOpen b ->
  deps_of a = deps_of b.
Proof. intros H1 H2 H3 H4. unfold deps_of. now rewrite H1, H2, H3, H4. Qed.

Lemma renderPass_rendered s : rendered (renderPass s) = Some (deps_of s).
Proof. reflexivity. Qed.

Lemma renderPass_containerHeight s :
  containerHeight (renderPass s)
  = if effect_deps_changed (rendered s) (deps_of s)
    then containerHeight (useLayoutEffect s)
    else containerHeight s.
Proof.
  unfold renderPass. cbv zeta. unfold seq, when, skip. proj.
  destruct (useMemo_frame s) as (Mp & Ms & Mc & Mo & _).
  destruct (effect_deps_changed _ _);
    destruct (memo_deps_changed _ _); try reflexivity; try exact Mc.
  rewrite !useLayoutEffect_containerHeight. now rewrite Mp, Ms, Mc.
Qed.

(** A second pass finds the container height the first one left. *)
Lemma renderPass_twice_containerHeight s :
  containerHeight (renderPass (renderPass s)) = containerHeight (renderPass s).
Proof.
  destruct (renderPass_frame s) as (Fp & Fs & Fo & _).
  pose proof (renderPass_containerHeight s) as C1.
  pose proof (renderPass_rendered s) as R1.
  set (s1 := renderPass s) in *. clearbody s1.
  rewrite (renderPass_containerHeight s1), R1.
  destruct (effect_deps_changed (rendered s) (deps_of s)) eqn:E1.
  - destruct (effect_deps_changed (Some (deps_of s)) (deps_of s1));
      [|reflexivity].
    rewrite useLayoutEffect_containerHeight, Fp, Fs.
    rewrite useLayoutEffect_containerHeight in C1. rewrite C1.
    destruct (hideBackdrop (props s)); [reflexivity|].
    destruct (passedContainerHeight (props s)); try reflexivity.
    destruct (Qeq_bool (containerHeight s) (SCREEN_HEIGHT s)) eqn:E2;
      cbn [negb];
      [rewrite E2; reflexivity | rewrite Qeq_bool_same; reflexivity].
  - rewrite (deps_of_ext s1 s Fp Fs C1 Fo), effect_deps_same.
    reflexivity.
Qed.

Lemma commit_rendered s : rendered (commit s) = Some (deps_of (commit s)).
Proof.
  unfold commit, seq. rewrite renderPass_rendered. f_equal.
  destruct (renderPass_frame (renderPass s)) as (Fp & Fs & Fo & _).
  symmetry. apply deps_of_ext; auto using renderPass_twice_containerHeight.
Qed.

Lemma commit_in_sync s : in_sync (commit s).
Proof.
  unfold in_sync. rewrite commit_rendered.
  split; [apply memo_deps_same | apply effect_deps_same].
Qed.

Lemma handle_rendered ev st : rendered (handle ev st) = rendered st.
Proof.
  destruct ev as [| | | | | | |c]; try destruct c; handler_cases; reflexivity.
Qed.

Lemma Qeq_bool_chain a b c :
  Qeq_bool a b = true -> Qeq_bool b c = true -> Qeq_bool a c = true.
Proof.
  intros H1 H2. apply Qeq_bool_iff in H1, H2. apply Qeq_bool_iff.
  now rewrite H1.
Qed.

Lemma step_in_sync ev st : in_sync st -> in_sync (step st ev).
Proof.
  intros [Hm He]. unfold step. cbv zeta.
  destruct (needs_render ev st (handle ev st)) eqn:Hn;
    [apply commit_in_sync|].
  destruct ev as [| |p' s'| | | | |]; try discriminate;
    (cbn [needs_render] in Hn; apply negb_false_iff in Hn;
     apply andb_true_iff in Hn; destruct Hn as [Hc Ho];
     apply eqb_prop in Ho;
     match goal with
     | |- in_sync (handle ?e st) =>
         destruct (handle_frame e st ltac:(intros; discriminate))
           as (Hp & Hs & _);
         pose proof (handle_rendered e st) as Hr
     end;
     unfold in_sync; rewrite Hr;
     destruct (rendered st) as [o|]; [|discriminate];
     unfold memo_deps_changed, effect_deps_changed, deps_of in *;
     cbn [d_containerHeight d_height d_sheetOpen d_animationType
          d_passedContainerHeight d_SCREEN_HEIGHT d_hideBackdrop] in *;
     rewrite Hp, Hs, <- Ho;
     apply negb_false_iff in Hm, He;
     repeat match goal with
       | H : _ && _ = true |- _ =>
           apply andb_true_iff in H; destruct H
       end;
     split; apply negb_false_iff;
     repeat (apply andb_true_iff; split); try assumption;
     eapply Qeq_bool_chain; eassumption).
Qed.

Lemma run_in_sync evs : forall st, in_sync st -> in_sync (run st evs).
Proof.
  induction evs as [|ev evs IH]; intros st H; [exact H|].
  apply (IH (step st ev)). now apply step_in_sync.
Qed.

Lemma renderPass_in_sync st :
  in_sync st -> renderPass st = set_rendered (Some (deps_of st)) st.
Proof.
  intros [Hm He]. unfold renderPass. cbv zeta. unfold seq, when, skip.
  now rewrite Hm, He.
Qed.

(** X12. Renders settle.  In every state the sheet can reach, the
    dependencies of the memo and of the layout effect are, as numbers,
    those the last render saw, so that rendering once more runs neither:
    it changes no hook, no channel and nothing in the log.  The state the
    effect stores cannot make it run for ever. *)
Theorem renders_settle (p : Props) (screen : Q) (evs : list Event) :
  let st := run (mount p screen) evs in
  in_sync st
  /\ containerHeight (renderPass st) = containerHeight st
  /\ convertedHeight (renderPass st) = convertedHeight st
  /\ sheetOpen (renderPass st) = sheetOpen st
  /\ (forall c, chan c (renderPass st) = chan c st)
  /\ log (renderPass st) = log st.
Proof.
  intro st.
  assert (H : in_sync st) by apply run_in_sync, commit_in_sync.
  split; [exact H|]. rewrite (renderPass_in_sync st H).
  generalize (deps_of st). clearbody st. intro d.
  split; [reflexivity|]. split; [reflexivity|]. split; [reflexivity|].
  split; [|reflexivity]. intro c. destruct c; reflexivity.
Qed.

(* ================================================================ *)
(** ** What a render resolves *)

Lemma commit_in_sync_nf x :
  in_sync x -> commit x = set_rendered (Some (deps_of x)) x.
Proof.
  intro H. unfold commit, seq. rewrite (renderPass_in_sync x H).
  rewrite renderPass_in_sync; [reflexivity|].
  unfold in_sync. cbn [rendered set_rendered].
  replace (deps_of (set_rendered (Some (deps_of x)) x)) with (deps_of x)
    by reflexivity.
  split; [apply memo_deps_same | apply effect_deps_same].
Qed.

Lemma useLayoutEffect_noop y :
  hideBackdrop (props y) = true
  \/ is_percentage (passedContainerHeight (props y)) = true ->
  useLayoutEffect y = y.
Proof.
  intros [H | H]; unfold useLayoutEffect.
  - now rewrite H.
  - destruct (hideBackdrop _); [reflexivity|].
    destruct (passedContainerHeight _); try discriminate. reflexivity.
Qed.

(** A render that finds a memo dependency changed, with an effect that has
    nothing to do: the memo runs once and the second pass finds nothing. *)
Lemma commit_resolves x :
  memo_deps_changed (rendered x) (deps_of x) = true ->
  hideBackdrop (props x) = true
  \/ is_percentage (passedContainerHeight (props x)) = true ->
  commit x = set_rendered (Some (deps_of x)) (useMemo_convertedHeight x).
Proof.
  intros Hm Hnoop.
  destruct (useMemo_frame x) as (Mp & Ms & Mc & Mo & _).
  assert (P1 : renderPass x
               = set_rendered (Some (deps_of x)) (useMemo_convertedHeight x)).
  { unfold renderPass. cbv zeta. unfold seq, when, skip. rewrite Hm.
    destruct (effect_deps_changed _ _); [|reflexivity].
    rewrite useLayoutEffect_noop; [reflexivity|]. now rewrite Mp. }
  unfold commit, seq. rewrite P1.
  set (y := useMemo_convertedHeight x) in *.
  assert (D : deps_of (set_rendered (Some (deps_of x)) y) = deps_of x).
  { change (deps_of (set_rendered (Some (deps_of x)) y)) with (deps_of y).
    now apply deps_of_ext. }
  rewrite renderPass_in_sync.
  - rewrite D. reflexivity.
  - unfold in_sync. cbn [rendered set_rendered]. rewrite D.
    split; [apply memo_deps_same | apply effect_deps_same].
Qed.

Lemma in_sync_container_height st c :
  in_sync st ->
  Qeq_bool (containerHeight st) c = false ->
  memo_deps_changed (rendered st) (deps_of (setContainerHeight c st)) = true.
Proof.
  intros [Hm _] Hc.
  destruct (rendered st) as [o|]; [|reflexivity].
  unfold memo_deps_changed, deps_of in *.
  cbn [d_containerHeight d_height d_sheetOpen d_animationType
       containerHeight setContainerHeight props sheetOpen] in *.
  apply negb_false_iff in Hm.
  repeat match goal with
    | H : _ && _ = true |- _ => apply andb_true_iff in H; destruct H
    end.
  replace (Qeq_bool (d_containerHeight o) c) with false; [reflexivity|].
  symmetry. destruct (Qeq_bool (d_containerHeight o) c) eqn:E; [|reflexivity].
  rewrite <- Hc. symmetry. apply Qeq_bool_iff in E.
  match goal with
  | H : Qeq_bool (d_containerHeight o) _ = true |- _ =>
      apply Qeq_bool_iff in H; apply Qeq_bool_iff; now rewrite <- H
  end.
Qed.

(** X13. A measured container height re-resolves the sheet.  When the
    measuring view (a percentage [containerHeight] prop) reports a height
    [h] other than the stored one, the stored container height becomes [h]
    and the resolved height becomes
    [convertHeight(height, h, hideHandleBar)].  On a closed sheet no channel
    and no log entry changes; on an open one the container height is set to
    [h] at once, and the content height is set to the new resolved height
    under fade and animated to it otherwise. *)
Theorem measured_container_height_is_resolved
  (p : Props) (screen : Q) (history : list Event) (h : Q) :
  let st := run (mount p screen) history in
  let st' := step st (ContainerLayout h) in
  let a := animationType (props st) in
  let newHeight :=
    convertHeight (height (props st)) h (hideHandleBar (props st)) in
  measuring_view st = true ->
  Qeq_bool (containerHeight st) h = false ->
  containerHeight st' = h
  /\ convertedHeight st' = newHeight
  /\ (sheetOpen st = false ->
      log st' = log st /\ forall c, chan c st' = chan c st)
  /\ (sheetOpen st = true ->
      animatedContainerHeight st' = mkAnimated (Fin h) None
      /\ animatedHeight st'
         = (if ANIMATIONS_eqb a FADE then mkAnimated (Fin newHeight) None
            else mkAnimated (value (animatedHeight st))
                   (Some (animateHeight a newHeight None, NoCallback)))).
Proof.
  intros st st' a newHeight Hmv Hh.
  assert (Hs : in_sync st) by apply run_in_sync, commit_in_sync.
  set (x := containerViewLayoutHandler h st).
  assert (Hx : handle (ContainerLayout h) st = x).
  { cbn [handle]. unfold when. now rewrite Hmv. }
  assert (Fx : props x = props st /\ containerHeight x = h
               /\ sheetOpen x = sheetOpen st /\ rendered x = rendered st
               /\ deps_of x = deps_of (setContainerHeight h st)).
  { subst x. unfold containerViewLayoutHandler, seq, when, skip.
    destruct (sheetOpen st) eqn:Eo; rewrite ?setValue_nf; proj;
      repeat split; try assumption;
      unfold deps_of; proj; now rewrite ?Eo. }
  destruct Fx as (Xp & Xc & Xo & Xr & Xd).
  assert (Hst' : st' = set_rendered (Some (deps_of x))
                         (useMemo_convertedHeight x)).
  { subst st'. unfold step. cbv zeta. rewrite Hx.
    replace (needs_render (ContainerLayout h) st x) with true
      by (cbn [needs_render]; now rewrite Xc, Hh).
    apply commit_resolves.
    - rewrite Xr, Xd. now apply in_sync_container_height.
    - right. now rewrite Xp. }
  rewrite Hst'. unfold useMemo_convertedHeight. cbv zeta.
  rewrite Xp, Xc, Xo. fold a newHeight.
  subst x. unfold containerViewLayoutHandler, seq, when, skip.
  destruct (sheetOpen st) eqn:Eo.
  - destruct (ANIMATIONS_eqb a FADE);
      rewrite ?setValue_nf, ?start_nf; proj;
      (split; [reflexivity|]); (split; [reflexivity|]);
      (split; [discriminate|]); intros _; split; reflexivity.
  - proj. split; [reflexivity|]. split; [reflexivity|].
    split; [|discriminate]. intros _. split; [reflexivity|].
    intro c. destruct c; reflexivity.
Qed.

(** X14. A render that brings no changed dependency resolves nothing.
    When the new props have the [animationType], [height],
    [containerHeight] and [hideBackdrop] of the old ones and the window
    height is the same, the resolved height, the stored container height,
    the channels and the log stay as they are, even if [hideHandleBar],
    which [convertHeight] takes as an argument but the memo does not list,
    has changed. *)
Theorem render_without_changed_dependency
  (p : Props) (screen : Q) (history : list Event) (p' : Props) :
  let st := run (mount p screen) history in
  let st' := step st (Render p' (SCREEN_HEIGHT st)) in
  animationType p' = animationType (props st) ->
  height p' = height (props st) ->
  passedContainerHeight p' = passedContainerHeight (props st) ->
  hideBackdrop p' = hideBackdrop (props st) ->
  props st' = p'
  /\ convertedHeight st' = convertedHeight st
  /\ containerHeight st' = containerHeight st
  /\ sheetOpen st' = sheetOpen st
  /\ (forall c, chan c st' = chan c st)
  /\ log st' = log st.
Proof.
  intros st st' H1 H2 H3 H4.
  assert (Hs : in_sync st) by apply run_in_sync, commit_in_sync.
  set (x := set_env p' (SCREEN_HEIGHT st) st).
  assert (D : deps_of x = deps_of st).
  { subst x. unfold deps_of. proj. now rewrite H1, H2, H3, H4. }
  assert (Hx : in_sync x).
  { unfold in_sync. rewrite D. exact Hs. }
  assert (E : st' = set_rendered (Some (deps_of x)) x).
  { subst st'. unfold step. cbv zeta. cbn [handle needs_render].
    now apply commit_in_sync_nf. }
  rewrite E. generalize (deps_of x). intro d. subst x.
  split; [reflexivity|]. split; [reflexivity|]. split; [reflexivity|].
  split; [reflexivity|]. split; [|reflexivity].
  intro c. destruct c; reflexivity.
Qed.

(* ================================================================ *)
(** ** Mounting and the window *)

Lemma memo_deps_changed_height d c :
  memo_deps_changed (Some d)
    (mkDeps c (d_height d) (d_sheetOpen d) (d_animationType d)
       (d_passedContainerHeight d) (d_SCREEN_HEIGHT d) (d_hideBackdrop d))
  = negb (Qeq_bool (d_containerHeight d) c).
Proof.
  unfold memo_deps_changed.
  cbn [d_containerHeight d_height d_sheetOpen d_animationType].
  now rewrite HeightSpec_same_refl, eqb_reflx, ANIMATIONS_eqb_refl,
    !andb_true_r.
Qed.

Lemma useLayoutEffect_convertedHeight x :
  convertedHeight (useLayoutEffect x) = convertedHeight x.
Proof.
  unfold useLayoutEffect.
  destruct (hideBackdrop _); [reflexivity|].
  destruct (passedContainerHeight _); [| |reflexivity].
  - destruct (negb _); [|reflexivity].
    open_actions. destruct (sheetOpen x); open_actions; reflexivity.
  - open_actions. destruct (sheetOpen x); open_actions; reflexivity.
Qed.

(** X15. A sheet just mounted is closed, has asked nothing of the engine,
    and holds 0 on every channel and no tag.  Its stored container height
    is the window height, or [normalizeHeight] of a numeric
    [containerHeight] prop when the backdrop is not hidden; its resolved
    height is [convertHeight] of the [height] prop against that container
    height. *)
Theorem mounted_sheet (p : Props) (screen : Q) :
  let st := mount p screen in
  let container :=
    if hideBackdrop p then screen
    else match passedContainerHeight p with
         | CHNumber n => normalizeHeight n
         | _ => screen
         end in
  props st = p
  /\ sheetOpen st = false
  /\ log st = []
  /\ (forall c, chan c st = mkAnimated (Fin 0) None)
  /\ cachedContentWrapperNativeTag st = None
  /\ containerHeight st = container
  /\ convertedHeight st
     = convertHeight (height p)
         (if Qeq_bool screen container then screen else container)
         (hideHandleBar p).
Proof.
  intros st container.
  set (i := initial p screen).
  assert (Hst : st = renderPass (renderPass i)) by reflexivity.
  clearbody st.
  set (cv0 := convertHeight (height p) screen (hideHandleBar p)).
  assert (P1 : renderPass i
               = set_rendered (Some (deps_of i))
                   (setContainerHeight container
                      (set_convertedHeight cv0 i))).
  { unfold renderPass, useMemo_convertedHeight, useLayoutEffect.
    cbv zeta. unfold seq, when, skip. subst i container cv0.
    cbn [initial rendered memo_deps_changed effect_deps_changed sheetOpen
         props containerHeight set_convertedHeight SCREEN_HEIGHT].
    destruct (hideBackdrop p); [reflexivity|].
    destruct (passedContainerHeight p); try reflexivity.
    rewrite Qeq_bool_same. reflexivity. }
  set (x1 := renderPass i) in *.
  assert (F1 : props x1 = p /\ SCREEN_HEIGHT x1 = screen
               /\ containerHeight x1 = container /\ sheetOpen x1 = false
               /\ rendered x1 = Some (deps_of i)
               /\ convertedHeight x1 = cv0 /\ log x1 = []
               /\ cachedContentWrapperNativeTag x1 = None
               /\ forall c, chan c x1 = mkAnimated (Fin 0) None).
  { rewrite P1. repeat split. intro c. now destruct c. }
  assert (Gc : containerHeight (renderPass x1) = container).
  { unfold x1 at 1. rewrite (renderPass_twice_containerHeight i).
    fold x1. apply F1. }
  clearbody x1. destruct F1 as (Fp & Fs & Fc & Fo & Fr & Fv & Fl & Ft & Fch).
  assert (Hd : deps_of x1
               = mkDeps container (d_height (deps_of i))
                   (d_sheetOpen (deps_of i)) (d_animationType (deps_of i))
                   (d_passedContainerHeight (deps_of i))
                   (d_SCREEN_HEIGHT (deps_of i))
                   (d_hideBackdrop (deps_of i))).
  { unfold deps_of. now rewrite Fp, Fs, Fc, Fo. }
  destruct (renderPass_frame x1) as (Gp & _ & Go & Gt & _).
  destruct (renderPass_closed x1 Fo) as [Gl Gch].
  rewrite Hst.
  split; [congruence|]. split; [congruence|]. split; [congruence|].
  split; [intro c; now rewrite Gch|]. split; [congruence|].
  split; [exact Gc|].
  unfold renderPass. cbv zeta. unfold seq, when, skip. proj.
  rewrite Fr, Hd, memo_deps_changed_height.
  change (d_containerHeight (deps_of i)) with screen.
  destruct (Qeq_bool screen container) eqn:E; cbn [negb].
  - destruct (effect_deps_changed _ _);
      rewrite ?useLayoutEffect_convertedHeight; exact Fv.
  - assert (M : convertedHeight (useMemo_convertedHeight x1)
                = convertHeight (height p) container (hideHandleBar p)).
    { unfold useMemo_convertedHeight. cbv zeta. unfold seq, when, skip.
      rewrite Fo, Fp, Fc. reflexivity. }
    destruct (effect_deps_changed _ _);
      rewrite ?useLayoutEffect_convertedHeight; exact M.
Qed.

(* ================================================================ *)
(** ** The container height and the window *)

Lemma useMemo_container x :
  animatedContainerHeight (useMemo_convertedHeight x)
  = animatedContainerHeight x.
Proof.
  unfold useMemo_convertedHeight. cbv zeta. open_actions.
  destruct (sheetOpen x) eqn:E; [|reflexivity].
  destruct (ANIMATIONS_eqb _ _); open_actions; reflexivity.
Qed.

Lemma useLayoutEffect_container x :
  animatedContainerHeight (useLayoutEffect x)
  = if hideBackdrop (props x) then animatedContainerHeight x
    else match passedContainerHeight (props x) with
         | CHNumber n =>
             if sheetOpen x then mkAnimated (Fin n) None
             else animatedContainerHeight x
         | CHUndefined =>
             if negb (Qeq_bool (containerHeight x) (SCREEN_HEIGHT x))
                && sheetOpen x
             then mkAnimated (Fin (SCREEN_HEIGHT x)) None
             else animatedContainerHeight x
         | CHString _ => animatedContainerHeight x
         end.
Proof.
  unfold useLayoutEffect.
  destruct (hideBackdrop _); [reflexivity|].
  destruct (passedContainerHeight _); [| |reflexivity].
  - destruct (negb _); [|reflexivity].
    open_actions. destruct (sheetOpen x); open_actions; reflexivity.
  - open_actions. destruct (sheetOpen x); open_actions; reflexivity.
Qed.

Lemma renderPass_container s :
  animatedContainerHeight (renderPass s)
  = if effect_deps_changed (rendered s) (deps_of s)
    then animatedContainerHeight (useLayoutEffect s)
    else animatedContainerHeight s.
Proof.
  unfold renderPass. cbv zeta. unfold seq, when, skip. proj.
  destruct (useMemo_frame s) as (Mp & Ms & Mc & Mo & _).
  pose proof (useMemo_container s) as Mk.
  destruct (effect_deps_changed _ _);
    destruct (memo_deps_changed _ _); try reflexivity; try exact Mk.
  rewrite !useLayoutEffect_container. now rewrite Mp, Ms, Mc, Mo, Mk.
Qed.

(** A render pass leaves the container height at the window height when it
    was there already or the effect ran. *)
Lemma renderPass_tracks_window s :
  (effect_deps_changed (rendered s) (deps_of s) = false -> tracks_window s) ->
  tracks_window (renderPass s).
Proof.
  intros H Hb Hu.
  destruct (renderPass_frame s) as (Fp & Fs & _).
  rewrite Fp in Hb, Hu. rewrite Fs, renderPass_containerHeight.
  destruct (effect_deps_changed _ _).
  - rewrite useLayoutEffect_containerHeight, Hb, Hu.
    destruct (Qeq_bool (containerHeight s) (SCREEN_HEIGHT s)) eqn:E;
      cbn [negb]; [exact E | apply Qeq_bool_same].
  - now apply H.
Qed.

Lemma commit_tracks_window s :
  (effect_deps_changed (rendered s) (deps_of s) = false -> tracks_window s) ->
  tracks_window (commit s).
Proof.
  intro H. unfold commit, seq.
  apply renderPass_tracks_window. intros _.
  now apply renderPass_tracks_window.
Qed.

Lemma step_tracks_window ev st :
  in_sync st -> tracks_window st -> tracks_window (step st ev).
Proof.
  intros [_ He] Ht. unfold step. cbv zeta.
  destruct ev as [| |p' s'| | | | |];
    try (match goal with
         | |- context [needs_render ?e st _] =>
             destruct (handle_frame e st ltac:(intros; discriminate))
               as (Hp & Hs & Hc)
         end;
         assert (Hk : tracks_window (handle _ st))
           by (intros Hb Hu; rewrite Hp in Hb, Hu; rewrite Hs, Hc;
               [now apply Ht | unfold measuring_view; now rewrite Hu]);
         destruct (needs_render _ _ _);
           [apply commit_tracks_window; intros _|]; exact Hk).
  cbn [needs_render handle]. apply commit_tracks_window.
  cbn [rendered set_env]. intros Hd Hb Hu. proj_all.
  destruct (rendered st) as [o|]; [|discriminate].
  unfold effect_deps_changed, deps_of in *.
  cbn [d_containerHeight d_passedContainerHeight d_SCREEN_HEIGHT
       d_sheetOpen d_hideBackdrop] in *. proj_all.
  apply negb_false_iff in He, Hd.
  repeat match goal with
    | H : _ && _ = true |- _ => apply andb_true_iff in H; destruct H
    end.
  repeat match goal with
    | H : Bool.eqb _ _ = true |- _ => apply eqb_prop in H
    end.
  assert (Hb' : hideBackdrop (props st) = false) by congruence.
  assert (Hu' : passedContainerHeight (props st) = CHUndefined).
  { rewrite Hu in *.
    destruct (d_passedContainerHeight o); try discriminate.
    destruct (passedContainerHeight (props st)); try discriminate.
    reflexivity. }
  specialize (Ht Hb' Hu').
  repeat match goal with
    | H : Qeq_bool _ _ = true |- _ => apply Qeq_bool_iff in H
    end.
  apply Qeq_bool_iff.
  match goal with
  | A : d_SCREEN_HEIGHT o == SCREEN_HEIGHT st,
    B : d_SCREEN_HEIGHT o == s' |- _ => rewrite Ht, <- A, B; reflexivity
  end.
Qed.

Lemma run_tracks_window evs :
  forall st, in_sync st -> tracks_window st -> tracks_window (run st evs).
Proof.
  induction evs as [|ev evs IH]; intros st H T; [exact T|].
  apply (IH (step st ev)); [now apply step_in_sync|].
  now apply step_tracks_window.
Qed.

(** X16. Without a [containerHeight] prop the stored container height is
    the window height: after mounting and after every event, renders with
    new props or a new window height included, as long as the backdrop is
    not hidden. *)
Theorem container_height_tracks_window
  (p : Props) (screen : Q) (history : list Event) :
  let st := run (mount p screen) history in
  hideBackdrop (props st) = false ->
  passedContainerHeight (props st) = CHUndefined ->
  containerHeight st == SCREEN_HEIGHT st.
Proof.
  intros st Hb Hu. apply Qeq_bool_iff.
  apply (run_tracks_window history (mount p screen)); try assumption.
  - apply commit_in_sync.
  - apply commit_tracks_window. discriminate.
Qed.

Lemma in_sync_open_flips st :
  in_sync st -> sheetOpen st = false ->
  effect_deps_changed (rendered st) (deps_of (setSheetOpen true st)) = true.
Proof.
  intros [_ He] Ho.
  destruct (rendered st) as [o|]; [|reflexivity].
  unfold effect_deps_changed, deps_of in *.
  cbn [d_containerHeight d_passedContainerHeight d_SCREEN_HEIGHT
       d_sheetOpen d_hideBackdrop] in *. proj.
  apply negb_false_iff in He.
  repeat match goal with
    | H : _ && _ = true |- _ => apply andb_true_iff in H; destruct H
    end.
  match goal with
  | H : Bool.eqb (d_sheetOpen o) _ = true |- _ =>
      apply eqb_prop in H; rewrite H, Ho
  end.
  cbn [Bool.eqb]. now rewrite andb_false_r.
Qed.

Lemma openBottomSheet_container_channel st :
  animatedContainerHeight (openBottomSheet st)
  = mkAnimated (value (animatedContainerHeight st))
      (Some (animateContainerHeight
               (if hideBackdrop (props st) then convertedHeight st
                else containerHeight st), NoCallback)).
Proof.
  unfold openBottomSheet. cbv zeta. unfold seq.
  destruct (ANIMATIONS_eqb (animationType (props st)) FADE);
    rewrite ?setValue_nf, ?start_nf; proj; reflexivity.
Qed.

(** X17. Opening a closed sheet whose backdrop is shown.  [open()] starts
    the container-height transition towards the stored container height;
    the render it schedules runs the layout effect, which has [sheetOpen]
    among its dependencies.  With a numeric [containerHeight] prop [n] the
    effect sets the container height to [n] at once, so the transition
    just started is dropped and the container holds [n], not animated; the
    stored container height is [normalizeHeight(n)].  With no
    [containerHeight] prop, or a percentage, the effect changes nothing and
    the transition goes on. *)
Theorem open_with_backdrop_container
  (p : Props) (screen : Q) (history : list Event) :
  let st := run (mount p screen) history in
  let st' := step st Open in
  sheetOpen st = false ->
  hideBackdrop (props st) = false ->
  sheetOpen st' = true
  /\ match passedContainerHeight (props st) with
     | CHNumber n =>
         animatedContainerHeight st' = mkAnimated (Fin n) None
         /\ containerHeight st' = normalizeHeight n
     | _ =>
         animatedContainerHeight st'
         = mkAnimated (value (animatedContainerHeight st))
             (Some (animateContainerHeight (containerHeight st), NoCallback))
         /\ containerHeight st' = containerHeight st
     end.
Proof.
  intros st st' Ho Hb.
  assert (Hs : in_sync st) by apply run_in_sync, commit_in_sync.
  assert (Ht : tracks_window st).
  { apply run_tracks_window; [apply commit_in_sync|].
    apply commit_tracks_window. discriminate. }
  clearbody st.
  destruct (openBottomSheet_fields st)
    as (Xp & Xs & Xc & Xo & _ & _ & Xr & _).
  pose proof (openBottomSheet_container_channel st) as Xk.
  rewrite Hb in Xk.
  assert (Xd : deps_of (openBottomSheet st) = deps_of (setSheetOpen true st)).
  { apply deps_of_ext; proj; assumption. }
  assert (E1 : effect_deps_changed (rendered (openBottomSheet st))
                 (deps_of (openBottomSheet st)) = true).
  { rewrite Xr, Xd. now apply in_sync_open_flips. }
  assert (Hst' : st' = renderPass (renderPass (openBottomSheet st))).
  { subst st'. unfold step. cbv zeta. cbn [handle needs_render].
    rewrite Xo, Ho. cbn [Bool.eqb]. now rewrite andb_false_r. }
  set (x := openBottomSheet st) in *. clearbody x.
  pose proof (renderPass_container x) as K1.
  pose proof (renderPass_containerHeight x) as C1.
  rewrite E1, useLayoutEffect_container, Xp, Hb, Xs, Xc, Xo in K1.
  rewrite E1, useLayoutEffect_containerHeight, Xp, Hb, Xs, Xc in C1.
  destruct (renderPass_frame x) as (Fp & Fs & Fo & _).
  pose proof (renderPass_twice_containerHeight x) as C2.
  pose proof (renderPass_container (renderPass x)) as K2.
  rewrite useLayoutEffect_container, Fp, Fs, Fo, Xp, Hb, Xs, Xo in K2.
  rewrite Hst'. clear Hst' st'.
  set (s1 := renderPass x) in *. clearbody s1.
  split; [destruct (renderPass_frame s1) as (_ & _ & Go & _); congruence|].
  destruct (passedContainerHeight (props st)) eqn:Ep.
  - specialize (Ht Hb Ep). rewrite Ht in K1, C1.
    cbn [negb andb] in K1, C1. rewrite C1, Ht in K2. cbn [negb andb] in K2.
    split; [|congruence].
    rewrite K2.
    destruct (effect_deps_changed (rendered s1) (deps_of s1)); congruence.
  - split; [|congruence].
    rewrite K2.
    destruct (effect_deps_changed (rendered s1) (deps_of s1)); congruence.
  - split; [|congruence].
    rewrite K2.
    destruct (effect_deps_changed (rendered s1) (deps_of s1)); congruence.
Qed.

End BottomSheet.

(* ================================================================== *)
(** ** Properties of height resolution *)

Section Resolver.

Import HeightResolver.

Variable allowance : Q.





End Resolver.

(* ================================================================== *)
(** ** The properties at sample inputs *)

(** A slide sheet, opened, then closed; the content-height animation of the
    opening ends, then the backdrop fade. *)
Lemma close_fades_backdrop_first_witness :
  let st :=
    run Sample.convertHeight Sample.normalizeHeight
      (mount Sample.convertHeight Sample.normalizeHeight
         Sample.slide_props Sample.screen)
      [ContentLayout (Some 7%Z); Open] in
  let closed := step Sample.convertHeight Sample.normalizeHeight st Close in
  exists l,
    log (run Sample.convertHeight Sample.normalizeHeight closed
           [AnimationEnd Height; AnimationEnd BackdropMaskOpacity])
    = log st ++ l
    /\ fade_first l = true.
Proof.
  exact (proj1 (proj2
           (close_fades_backdrop_first
              Sample.convertHeight Sample.normalizeHeight
              Sample.slide_props Sample.screen
              [ContentLayout (Some 7%Z); Open]
              [AnimationEnd Height; AnimationEnd BackdropMaskOpacity]
              (Fin 1) (animateBackdropMaskOpacity 1) eq_refl))).
Defined.


(** An open sheet of height 300 released at 100, the threshold, closes;
    released at 99 it stays open and its content height is animated back to
    300.  One of height 500 released at 166.66666666666666, the double
    nearest to 500 / 3 and below it, closes. *)
Lemma release_closes_from_a_third_witness :
  let st :=
    step Sample.convertHeight Sample.normalizeHeight
      (mount Sample.convertHeight Sample.normalizeHeight
         Sample.slide_props Sample.screen)
      Open in
  let tall :=
    step Sample.convertHeight Sample.normalizeHeight
      (mount Sample.convertHeight Sample.normalizeHeight
         Sample.tall_props Sample.screen)
      Open in
  let d := 5864062014805333 # 35184372088832 in
  sheetOpen
    (step Sample.convertHeight Sample.normalizeHeight st
       (Release handlebar None 100)) = false
  /\ sheetOpen
       (step Sample.convertHeight Sample.normalizeHeight st
          (Release handlebar None (100 - 1))) = true
  /\ animatedHeight
       (step Sample.convertHeight Sample.normalizeHeight st
          (Release handlebar None 99))
     = mkAnimated (Fin 0)
         (Some (mkTiming 300 500 slideEasingFn, NoCallback))
  /\ d < 500 / 3
  /\ sheetOpen
       (step Sample.convertHeight Sample.normalizeHeight tall
          (Release handlebar None d)) = false.
Proof.
  cbv zeta.
  pose proof
    (release_closes_from_a_third
       Sample.convertHeight Sample.normalizeHeight
       (step Sample.convertHeight Sample.normalizeHeight
          (mount Sample.convertHeight Sample.normalizeHeight
             Sample.slide_props Sample.screen)
          Open)
       handlebar None 99 ltac:(vm_compute; reflexivity)) as H.
  pose proof
    (release_closes_from_a_third
       Sample.convertHeight Sample.normalizeHeight
       (step Sample.convertHeight Sample.normalizeHeight
          (mount Sample.convertHeight Sample.normalizeHeight
             Sample.tall_props Sample.screen)
          Open)
       handlebar None (5864062014805333 # 35184372088832)
       ltac:(vm_compute; reflexivity)) as G.
  cbv zeta in H, G.
  destruct H as (_ & B & H). destruct G as (G & _).
  destruct (H 100 ltac:(vm_compute; reflexivity)
              ltac:(vm_compute; reflexivity)) as [H1 H2].
  destruct (B ltac:(left; vm_compute; reflexivity)) as (_ & _ & _ & B4).
  destruct (G ltac:(vm_compute; reflexivity)
              ltac:(vm_compute; reflexivity)) as (_ & G2 & _).
  split; [exact H1|]. split; [rewrite H2; vm_compute; reflexivity|].
  split; [rewrite B4; vm_compute; reflexivity|].
  split; [reflexivity | exact G2].
Defined.

(** A drag of 150 on the handle bar of an open sheet of height 300. *)
Lemma move_tracks_drag_witness :
  let st :=
    step Sample.convertHeight Sample.normalizeHeight
      (mount Sample.convertHeight Sample.normalizeHeight
         Sample.slide_props Sample.screen)
      Open in
  let st' :=
    step Sample.convertHeight Sample.normalizeHeight st
      (Move handlebar None 150) in
  animatedBackdropMaskOpacity st'
  = mkAnimated (JS.sub (Fin 1) (JS.div 150 300)) None
  /\ animatedHeight st' = mkAnimated (Fin (300 - 150)) None.
Proof.
  cbv zeta.
  pose proof
    (move_tracks_drag Sample.convertHeight Sample.normalizeHeight
       (step Sample.convertHeight Sample.normalizeHeight
          (mount Sample.convertHeight Sample.normalizeHeight
             Sample.slide_props Sample.screen)
          Open)
       handlebar None 150 eq_refl) as H.
  cbv zeta in H. destruct H as [H _].
  destruct (H eq_refl) as (H1 & _ & _ & _ & H4 & _).
  split; [exact H1 | apply H4; vm_compute; discriminate].
Defined.

(** The same drag on a fade sheet. *)
Lemma fade_move_keeps_content_height_witness :
  let st :=
    step Sample.convertHeight Sample.normalizeHeight
      (mount Sample.convertHeight Sample.normalizeHeight
         Sample.fade_props Sample.screen)
      Open in
  animatedHeight
    (step Sample.convertHeight Sample.normalizeHeight st
       (Move handlebar None 150))
  = animatedHeight st.
Proof.
  exact (proj1
           (fade_move_keeps_content_height
              Sample.convertHeight Sample.normalizeHeight
              (step Sample.convertHeight Sample.normalizeHeight
                 (mount Sample.convertHeight Sample.normalizeHeight
                    Sample.fade_props Sample.screen)
                 Open)
              handlebar None 150 eq_refl)).
Defined.

(** C7 fails as stated: no tag has been cached (the layout event carried
    none), the target of the move carries none either, and the move is
    captured and moves two channels. *)
Lemma content_move_before_layout_is_captured :
  let st :=
    run Sample.convertHeight Sample.normalizeHeight
      (mount Sample.convertHeight Sample.normalizeHeight
         Sample.slide_props Sample.screen)
      [ContentLayout None; Open] in
  let st' :=
    step Sample.convertHeight Sample.normalizeHeight st
      (Move contentwrapper None 150) in
  cachedContentWrapperNativeTag st = None
  /\ captures contentwrapper None st = true
  /\ animatedBackdropMaskOpacity st'
     = mkAnimated (JS.sub (Fin 1) (JS.div 150 300)) None
  /\ animatedHeight st' = mkAnimated (Fin (300 - 150)) None
  /\ animatedBackdropMaskOpacity st' <> animatedBackdropMaskOpacity st
  /\ animatedHeight st' <> animatedHeight st.
Proof.
  cbv zeta. repeat split; try reflexivity; vm_compute; discriminate.
Qed.

(** A tag 7 is cached; a move whose target has the tag 9 changes nothing. *)
Lemma content_move_yields_to_other_targets_witness :
  let st :=
    run Sample.convertHeight Sample.normalizeHeight
      (mount Sample.convertHeight Sample.normalizeHeight
         Sample.slide_props Sample.screen)
      [ContentLayout (Some 7%Z); Open] in
  step Sample.convertHeight Sample.normalizeHeight st
    (Move contentwrapper (Some 9%Z) 150)
  = st.
Proof.
  exact (proj1 (proj2
           (content_move_yields_to_other_targets
              Sample.convertHeight Sample.normalizeHeight
              (run Sample.convertHeight Sample.normalizeHeight
                 (mount Sample.convertHeight Sample.normalizeHeight
                    Sample.slide_props Sample.screen)
                 [ContentLayout (Some 7%Z); Open])
              (Some 9%Z) 150))
           eq_refl).
Defined.

(** [hideBackdrop], [height = 300]: the container-height transition of
    [open()] goes to 300, not to the window height 800. *)
Lemma open_container_target_witness :
  animation
    (animatedContainerHeight
       (step Sample.convertHeight Sample.normalizeHeight
          (mount Sample.convertHeight Sample.normalizeHeight
             Sample.hidden_props Sample.screen)
          Open))
  = Some (animateContainerHeight 300, NoCallback).
Proof.
  exact (proj2 (proj2 (proj2 (proj2
           (open_container_target
              Sample.convertHeight Sample.normalizeHeight
              (initial Sample.hidden_props Sample.screen)
              Sample.hidden_props Sample.screen))))
           eq_refl).
Defined.



(** Mounted in a window of 800 with [hideBackdrop] and
    [containerHeight = 500]; then the prop becomes 640 and the window 1024
    high, the sheet is opened, and the window becomes 600 high. *)
Lemma hidden_backdrop_freezes_container_height_witness :
  containerHeight
    (run Sample.convertHeight Sample.normalizeHeight
       (mount Sample.convertHeight Sample.normalizeHeight
          Sample.hidden_props Sample.screen)
       [Render (mkProps SLIDE (Pixels 300) false false false true
                  (CHNumber 640) true) 1024;
        Open;
        Render Sample.hidden_props 600])
  = 800.
Proof.
  exact (proj1 (proj2 (proj2
           (hidden_backdrop_freezes_container_height
              Sample.convertHeight Sample.normalizeHeight
              Sample.hidden_props Sample.screen
              [Render (mkProps SLIDE (Pixels 300) false false false true
                         (CHNumber 640) true) 1024;
               Open;
               Render Sample.hidden_props 600]
              eq_refl eq_refl eq_refl)))).
Defined.

(* ================================================================== *)
(** ** Further properties at sample inputs *)

(** An open sheet stays open through a render with new props and a new
    window height, a layout, a move and the end of an animation. *)
Lemma open_flag_follows_calls_only_witness :
  let st :=
    step Sample.convertHeight Sample.normalizeHeight
      (mount Sample.convertHeight Sample.normalizeHeight
         Sample.slide_props Sample.screen)
      Open in
  sheetOpen
    (run Sample.convertHeight Sample.normalizeHeight st
       [Render Sample.fade_props 600; ContentLayout (Some 7%Z);
        Move handlebar None 150; AnimationEnd Height])
  = sheetOpen st.
Proof.
  cbv zeta. apply open_flag_follows_calls_only. reflexivity.
Defined.

(** A sheet of height 300 dragged by 150 and let go at 50. *)
Lemma released_drag_is_undone_witness :
  let st :=
    step Sample.convertHeight Sample.normalizeHeight
      (mount Sample.convertHeight Sample.normalizeHeight
         Sample.slide_props Sample.screen)
      Open in
  animatedBackdropMaskOpacity
    (run Sample.convertHeight Sample.normalizeHeight st
       [Move handlebar None 150; Release handlebar None 50])
  = mkAnimated (Fin 1) None.
Proof.
  cbv zeta.
  pose proof
    (released_drag_is_undone Sample.convertHeight Sample.normalizeHeight
       (step Sample.convertHeight Sample.normalizeHeight
          (mount Sample.convertHeight Sample.normalizeHeight
             Sample.slide_props Sample.screen)
          Open)
       handlebar None 150 50
       ltac:(vm_compute; reflexivity) ltac:(vm_compute; reflexivity)) as H.
  cbv zeta in H. exact (proj1 (proj2 (proj2 H))).
Defined.

(** Moves and releases on a sheet with both kinds of panning disabled. *)
Lemma disabled_panning_is_inert_witness :
  let st :=
    step Sample.convertHeight Sample.normalizeHeight
      (mount Sample.convertHeight Sample.normalizeHeight
         Sample.locked_props Sample.screen)
      Open in
  run Sample.convertHeight Sample.normalizeHeight st
    [Move handlebar None 150; Release contentwrapper (Some 7%Z) 200]
  = st.
Proof.
  cbv zeta.
  apply disabled_panning_is_inert; vm_compute; reflexivity.
Defined.

(** An open sheet with [containerHeight="50%"] in a window of 800, whose
    measuring view reports 400. *)
Lemma measured_container_height_is_resolved_witness :
  let st :=
    run Sample.convertHeight Sample.normalizeHeight
      (mount Sample.convertHeight Sample.normalizeHeight
         Sample.percent_props Sample.screen)
      [Open] in
  let st' :=
    step Sample.convertHeight Sample.normalizeHeight st
      (ContainerLayout 400) in
  containerHeight st' = 400
  /\ animatedContainerHeight st' = mkAnimated (Fin 400) None.
Proof.
  cbv zeta.
  pose proof
    (measured_container_height_is_resolved
       Sample.convertHeight Sample.normalizeHeight
       Sample.percent_props Sample.screen [Open] 400
       ltac:(vm_compute; reflexivity) ltac:(vm_compute; reflexivity)) as H.
  cbv zeta in H. destruct H as (H1 & _ & _ & H4).
  split; [exact H1 | apply H4; vm_compute; reflexivity].
Defined.

(** New props that differ in [hideHandleBar] only: the resolved height of
    the open sheet stays. *)
Lemma render_without_changed_dependency_witness :
  let st :=
    run Sample.convertHeight Sample.normalizeHeight
      (mount Sample.convertHeight Sample.normalizeHeight
         Sample.slide_props Sample.screen)
      [Open] in
  convertedHeight
    (step Sample.convertHeight Sample.normalizeHeight st
       (Render Sample.bare_props (SCREEN_HEIGHT st)))
  = convertedHeight st.
Proof.
  cbv zeta.
  pose proof
    (render_without_changed_dependency
       Sample.convertHeight Sample.normalizeHeight
       Sample.slide_props Sample.screen [Open] Sample.bare_props
       ltac:(vm_compute; reflexivity) ltac:(vm_compute; reflexivity)
       ltac:(vm_compute; reflexivity) ltac:(vm_compute; reflexivity)) as H.
  cbv zeta in H. exact (proj1 (proj2 H)).
Defined.

(** The window turns to 600, the sheet opens, and the window turns to
    1024 under new props. *)
Lemma container_height_tracks_window_witness :
  let st :=
    run Sample.convertHeight Sample.normalizeHeight
      (mount Sample.convertHeight Sample.normalizeHeight
         Sample.slide_props Sample.screen)
      [Render Sample.slide_props 600; Open; Render Sample.fade_props 1024] in
  containerHeight st == SCREEN_HEIGHT st.
Proof.
  cbv zeta.
  apply container_height_tracks_window; vm_compute; reflexivity.
Defined.

(** Opening a sheet with [containerHeight={500}]: the container holds 500
    with nothing in flight. *)
Lemma open_with_backdrop_container_witness :
  animatedContainerHeight
    (step Sample.convertHeight Sample.normalizeHeight
       (run Sample.convertHeight Sample.normalizeHeight
          (mount Sample.convertHeight Sample.normalizeHeight
             Sample.numeric_props Sample.screen)
          [])
       Open)
  = mkAnimated (Fin 500) None.
Proof.
  pose proof
    (open_with_backdrop_container
       Sample.convertHeight Sample.normalizeHeight
       Sample.numeric_props Sample.screen []
       ltac:(vm_compute; reflexivity) ltac:(vm_compute; reflexivity)) as H.
  cbv zeta in H. destruct H as [_ H].
  replace (passedContainerHeight
             (props
                (run Sample.convertHeight Sample.normalizeHeight
                   (mount Sample.convertHeight Sample.normalizeHeight
                      Sample.numeric_props Sample.screen)
                   [])))
    with (CHNumber 500) in H by (vm_compute; reflexivity).
  exact (proj1 H).
Defined.

(* ================================================================== *)
(** ** Traces of sample runs *)

(** The release threshold at sample heights: [300 / 3] is 100;
    [500 / 3] and [400 / 3] are the doubles 166.66666666666666 and
    133.33333333333334, one below and one above the exact quotient; a
    zero divisor gives an infinity or [NaN]. *)
Example div64_samples :
  div64 300 3 = Fin 100
  /\ div64 500 3 = Fin (5864062014805333 # 35184372088832)
  /\ 5864062014805333 # 35184372088832 < 500 / 3
  /\ div64 400 3 = Fin (4691249611844267 # 35184372088832)
  /\ 400 / 3 < 4691249611844267 # 35184372088832
  /\ div64 1 3 = Fin (6004799503160661 # 18014398509481984)
  /\ div64 (-7) 3 = Fin (-5254199565265579 # 2251799813685248)
  /\ div64 0 3 = Fin 0
  /\ div64 1 0 = PosInfinity
  /\ div64 (-1) 0 = NegInfinity
  /\ div64 0 0 = NaN.
Proof. vm_compute. repeat split. Qed.

(** Open, close, and let both animations end: the collapse comes last,
    after the report of the backdrop. *)
Example trace_open_close :
  log (run Sample.convertHeight Sample.normalizeHeight
         (mount Sample.convertHeight Sample.normalizeHeight
            Sample.slide_props Sample.screen)
         [Open; Close; AnimationEnd Height; AnimationEnd BackdropMaskOpacity])
  = [Started ContainerHeight (mkTiming 800 50 defaultEasing);
     Started BackdropMaskOpacity (mkTiming 1 200 defaultEasing);
     Started Height (mkTiming 300 500 slideEasingFn);
     Ended Height false;
     Started Height (mkTiming 300 500 slideEasingFn);
     Ended BackdropMaskOpacity false;
     Started BackdropMaskOpacity (mkTiming 0 200 defaultEasing);
     KeyboardListenersRemoved; KeyboardDismissed;
     Ended Height true;
     Ended BackdropMaskOpacity true;
     Started Height (mkTiming 0 500 slideEasingFn);
     Ended ContainerHeight false;
     Started ContainerHeight (mkTiming 0 50 defaultEasing)].
Proof. vm_compute. reflexivity. Qed.

(** A drag that displaces the fade: the collapse never comes. *)
Example trace_close_displaced :
  no_body_command
    (skipn 8
       (log (run Sample.convertHeight Sample.normalizeHeight
               (mount Sample.convertHeight Sample.normalizeHeight
                  Sample.fade_props Sample.screen)
               [Open; Close; Move handlebar None 150;
                AnimationEnd BackdropMaskOpacity; AnimationEnd Height])))
  = true.
Proof. vm_compute. reflexivity. Qed.

(** A sheet of half a container of 800, dragged by 150: opacity 0.625. *)
Example drag_opacity :
  match
    value (animatedBackdropMaskOpacity
             (run Sample.convertHeight Sample.normalizeHeight
                (mount Sample.convertHeight Sample.normalizeHeight
                   (mkProps SLIDE (Percent 50) false false false true
                      (CHNumber 800) false)
                   Sample.screen)
                [Open; Move handlebar None 150]))
  with
  | Fin q => q == 625 # 1000
  | _ => False
  end.
Proof. vm_compute. reflexivity. Qed.
